(** * hriday: the video acquisition workflow

    A shallow embedding of two React components of the heart-health
    monitor client:

    - [VideoUpload] (src/components/VideoUpload.tsx): the upload widget and
      its [validateFile] gate;
    - [RecordingPage] (src/pages/RecordingPage.tsx): the page that holds the
      acquired video, runs the processing pipeline ([handleProcess]) and
      resets the session ([handleReset]).

    JavaScript strings are modelled as [string], integers ([File.size],
    [Date.now()], durations, timer delays) as [Z], objects whose shape is
    declared outside these two files as finite maps from property names to
    values.  React state is an explicit record; every [setX] call is a
    record update.  One invocation of a handler is run from its first
    statement to its last: an [await] is the sequencing of the handler
    monad, and what the page emits (API calls, alerts, timers, navigation
    requests) is recorded in the order it is emitted.  [handleProcess] is
    also given one [await] at a time, so that other events can reach the
    page while a call is awaited; the two agree
    ([AsyncFacts.handleProcess_by_segments]). *)

From Stdlib Require Import ZArith Bool List Ascii String DecimalString.
From stdpp Require Import base option list strings gmap fin_maps.

Import ListNotations.
Local Open Scope string_scope.
Local Open Scope Z_scope.

(** ** DOM values *)

(** A [Blob] as the components read it: its byte length and its declared
    MIME type. *)
Record Blob := mkBlob {
  blob_size : Z;
  blob_type : string
}.

(** A [File] is a [Blob] with a name. *)
Record File := mkFile {
  name : string;
  size : Z;
  type : string
}.

(** ** A regular expression search, as [String.prototype.match] runs it *)

Module Regex.

(** Case folding of the [i] flag without the [u] flag: a character is
    compared through its upper-case form, and a character outside ASCII
    never folds to an ASCII one.  Only the ASCII letters matter for an
    ASCII pattern. *)
Definition canonicalize (c : ascii) : ascii :=
  let n := N_of_ascii c in
  if ((97 <=? n) && (n <=? 122))%N then ascii_of_N (n - 32) else c.

Definition char_eq_i (a b : ascii) : bool :=
  Ascii.eqb (canonicalize a) (canonicalize b).

(** [literal_i p s]: match the literal [p] at the start of [s] ignoring
    case; the result is what is left of [s]. *)
Fixpoint literal_i (p s : string) : option string :=
  match p with
  | EmptyString => Some s
  | String a p' =>
      match s with
      | EmptyString => None
      | String b s' => if char_eq_i a b then literal_i p' s' else None
      end
  end.

(** The end-of-input assertion [$] (no [m] flag). *)
Definition at_end (s : string) : bool :=
  match s with EmptyString => true | _ => false end.

(** [\.(alt1|alt2|...)$] tried at the current position. *)
Definition dot_alts_end (alts : list string) (s : string) : bool :=
  match s with
  | String c rest =>
      Ascii.eqb c "."%char &&
      existsb (fun alt =>
                 match literal_i alt rest with
                 | Some tl => at_end tl
                 | None => false
                 end) alts
  | EmptyString => false
  end.

(** The search tries every start position from left to right. *)
Fixpoint search (alts : list string) (s : string) : bool :=
  dot_alts_end alts s ||
  match s with
  | EmptyString => false
  | String _ s' => search alts s'
  end.

(** The folded form of a whole string, to state what a match means. *)
Fixpoint upper (s : string) : string :=
  match s with
  | EmptyString => EmptyString
  | String c s' => String (canonicalize c) (upper s')
  end.

End Regex.

(** ** VideoUpload *)

Module VideoUpload.

(** The component state ([useState] cells). *)
Record State := mkState {
  dragActive : bool;
  error : option string;
  selectedFile : option File
}.

Definition setError (e : option string) (st : State) : State :=
  {| dragActive := dragActive st; error := e; selectedFile := selectedFile st |}.

Definition setSelectedFile (f : option File) (st : State) : State :=
  {| dragActive := dragActive st; error := error st; selectedFile := f |}.

Definition maxSize : Z := 100 * 1024 * 1024.

Definition validTypes : list string :=
  ["video/mp4"; "video/webm"; "video/quicktime"; "video/x-msvideo"].

(** [validTypes.includes(t)] *)
Definition includes (l : list string) (t : string) : bool :=
  existsb (String.eqb t) l.

(** [/\.(mp4|webm|mov|avi)$/i] *)
Definition extAlternatives : list string := ["mp4"; "webm"; "mov"; "avi"].

Definition matchesExtension (n : string) : bool :=
  Regex.search extAlternatives n.

Definition formatMessage : string :=
  "Please upload a valid video file (MP4, WebM, MOV, or AVI)".

Definition sizeMessage : string :=
  "Video file must be less than 100MB".

(** [validateFile]: the returned boolean and the state after the one
    [setError] call every path makes. *)
Definition validateFile (file : File) (st : State) : bool * State :=
  if negb (includes validTypes (type file)) && negb (matchesExtension (name file))
  then (false, setError (Some formatMessage) st)
  else if maxSize <? size file
  then (false, setError (Some sizeMessage) st)
  else (true, setError None st).

(** [handleFile]: the state after, and the file handed to [onFileSelect]
    when there is one. *)
Definition handleFile (file : File) (st : State) : State * option File :=
  let '(ok, st1) := validateFile file st in
  if ok then (setSelectedFile (Some file) st1, Some file) else (st1, None).

Definition setDragActive (b : bool) (st : State) : State :=
  {| dragActive := b; error := error st; selectedFile := selectedFile st |}.

(** [handleDrag], by [e.type].  ([preventDefault] and [stopPropagation]
    act on the event, not on the component.) *)
Definition handleDrag (eventType : string) (st : State) : State :=
  if String.eqb eventType "dragenter" || String.eqb eventType "dragover"
  then setDragActive true st
  else if String.eqb eventType "dragleave"
  then setDragActive false st
  else st.

(** [handleDrop], given [e.dataTransfer.files]: the state after, and the
    file handed to [onFileSelect] when there is one. *)
Definition handleDrop (files : option (list File)) (st : State)
  : State * option File :=
  let st1 := setDragActive false st in
  match files with
  | Some (f :: _) => handleFile f st1
  | _ => (st1, None)
  end.

(** [handleChange], given [e.target.files]. *)
Definition handleChange (files : option (list File)) (st : State)
  : State * option File :=
  match files with
  | Some (f :: _) => handleFile f st
  | _ => (st, None)
  end.

End VideoUpload.

(** ** RecordingPage *)

Module RecordingPage.

Inductive Mode := select | record | upload.

(** The pages [onNavigate] accepts. *)
Inductive Page := dashboard | record_page | analysis.

(** The authenticated user, as [useAuth] exposes it: [id] and the
    optional [email]. *)
Record User := mkUser {
  user_id : string;
  user_email : option string
}.

(** The six [useState] cells of the page. *)
Record Session := mkSession {
  mode : Mode;
  videoBlob : option Blob;
  videoFile : option File;
  uploading : bool;
  uploadComplete : bool;
  recordingId : option string
}.

(** The initial values given to [useState]. *)
Definition initialSession : Session :=
  {| mode := select; videoBlob := None; videoFile := None;
     uploading := false; uploadComplete := false; recordingId := None |}.

Definition setMode (m : Mode) (s : Session) : Session :=
  {| mode := m; videoBlob := videoBlob s; videoFile := videoFile s;
     uploading := uploading s; uploadComplete := uploadComplete s;
     recordingId := recordingId s |}.

Definition setVideoBlob (b : option Blob) (s : Session) : Session :=
  {| mode := mode s; videoBlob := b; videoFile := videoFile s;
     uploading := uploading s; uploadComplete := uploadComplete s;
     recordingId := recordingId s |}.

Definition setVideoFile (f : option File) (s : Session) : Session :=
  {| mode := mode s; videoBlob := videoBlob s; videoFile := f;
     uploading := uploading s; uploadComplete := uploadComplete s;
     recordingId := recordingId s |}.

Definition setUploading (b : bool) (s : Session) : Session :=
  {| mode := mode s; videoBlob := videoBlob s; videoFile := videoFile s;
     uploading := b; uploadComplete := uploadComplete s;
     recordingId := recordingId s |}.

Definition setUploadComplete (b : bool) (s : Session) : Session :=
  {| mode := mode s; videoBlob := videoBlob s; videoFile := videoFile s;
     uploading := uploading s; uploadComplete := b;
     recordingId := recordingId s |}.

Definition setRecordingId (r : option string) (s : Session) : Session :=
  {| mode := mode s; videoBlob := videoBlob s; videoFile := videoFile s;
     uploading := uploading s; uploadComplete := uploadComplete s;
     recordingId := r |}.

(** A value that was thrown: an [Error] with its message, or anything
    else, a string or a plain object, with the text it carries if it
    carries one ([error instanceof Error] is what the handler tests). *)
Inductive Thrown :=
| ErrorObject (message : string)
| NotAnError (text : option string).

(** What a timer runs when it fires.  The page creates one kind of
    callback: [() => onNavigate(page, id)]. *)
Inductive Callback :=
| CallOnNavigate (p : Page) (rid : option string).

Record Timer := mkTimer {
  delay : Z;
  callback : Callback
}.

(** The pipeline steps, in the order the spec lists them. *)
Inductive Step :=
| StepEnsureProfile
| StepCreateRecording
| StepGenerateSeries
| StepGeneratePrediction
| StepPersistSeries
| StepPersistPrediction.

Definition pipelineOrder : list Step :=
  [StepEnsureProfile; StepCreateRecording; StepGenerateSeries;
   StepGeneratePrediction; StepPersistSeries; StepPersistPrediction].

#[global] Instance Step_eq_dec : EqDecision Step.
Proof. solve_decision. Defined.

(** [a || b] on an optional string: [undefined] and the empty string are
    falsy. *)
Definition orElse (a : option string) (b : string) : string :=
  match a with
  | Some EmptyString => b
  | Some s => s
  | None => b
  end.

(** Number to string conversion of an integer, as a template literal
    does it. *)
Definition numberToString (n : Z) : string :=
  NilZero.string_of_int (Z.to_int n).

Section Model.

(** Property values of the rows the API produces, and the state of
    everything outside the page (database, clock, random source): both
    are opaque to the page. *)
Context {Value World : Type}.

(** The row of [video_recordings] that [createRecording] resolves to:
    the page reads [id] only. *)
Record VideoRecording := mkVideoRecording {
  recording_id : string;
  recording_columns : gmap string Value
}.

(** The collaborator [HealthMonitoringAPI] (services/api.ts) and the
    clock: each call reads and changes the outside world and either
    returns or throws. *)
Record Collaborators := mkCollaborators {
  ensureUserProfile : string -> string -> World -> World * (Thrown + unit);
  createRecording :
    string -> string -> Z -> World -> World * (Thrown + VideoRecording);
  simulateHeartRateData :
    string -> Z -> string -> World -> World * (Thrown + list (gmap string Value));
  simulateRiskPrediction :
    string -> list (gmap string Value) -> string ->
    World -> World * (Thrown + gmap string Value);
  saveHeartRateData :
    list (gmap string Value) -> World -> World * (Thrown + unit);
  saveRiskPrediction :
    gmap string Value -> World -> World * (Thrown + unit);
  dateNow : World -> Z
}.

(** A call made to the API, with its arguments. *)
Inductive Request :=
| EnsureUserProfile (userId email : string)
| CreateRecording (userId fileName : string) (duration : Z)
| SimulateHeartRateData (rid : string) (duration : Z) (fileName : string)
| SimulateRiskPrediction (rid : string)
    (heartRateData : list (gmap string Value)) (fileName : string)
| SaveHeartRateData (rows : list (gmap string Value))
| SaveRiskPrediction (row : gmap string Value).

(** How the call ended. *)
Inductive Response :=
| Threw (e : Thrown)
| ReturnedVoid
| ReturnedRecording (r : VideoRecording)
| ReturnedRows (rows : list (gmap string Value))
| ReturnedObject (o : gmap string Value).

Definition stepOf (q : Request) : Step :=
  match q with
  | EnsureUserProfile _ _ => StepEnsureProfile
  | CreateRecording _ _ _ => StepCreateRecording
  | SimulateHeartRateData _ _ _ => StepGenerateSeries
  | SimulateRiskPrediction _ _ _ => StepGeneratePrediction
  | SaveHeartRateData _ => StepPersistSeries
  | SaveRiskPrediction _ => StepPersistPrediction
  end.

Definition threw (r : Response) : bool :=
  match r with Threw _ => true | _ => false end.

(** Everything one handler can read or change: the outside world, the
    page state, and what the page has emitted so far (API calls in
    order, [console.error], [alert], pending timers, [onNavigate]
    requests). *)
Record Runtime := mkRuntime {
  world : World;
  session : Session;
  calls : list (Request * Response);
  console : list Thrown;
  alerts : list string;
  timers : list Timer;
  navigations : list (Page * option string)
}.

Definition withWorld (w : World) (rt : Runtime) : Runtime :=
  mkRuntime w (session rt) (calls rt) (console rt) (alerts rt)
            (timers rt) (navigations rt).
Definition withSession (s : Session) (rt : Runtime) : Runtime :=
  mkRuntime (world rt) s (calls rt) (console rt) (alerts rt)
            (timers rt) (navigations rt).
Definition withCalls (c : list (Request * Response)) (rt : Runtime) : Runtime :=
  mkRuntime (world rt) (session rt) c (console rt) (alerts rt)
            (timers rt) (navigations rt).
Definition withConsole (c : list Thrown) (rt : Runtime) : Runtime :=
  mkRuntime (world rt) (session rt) (calls rt) c (alerts rt)
            (timers rt) (navigations rt).
Definition withAlerts (a : list string) (rt : Runtime) : Runtime :=
  mkRuntime (world rt) (session rt) (calls rt) (console rt) a
            (timers rt) (navigations rt).
Definition withTimers (t : list Timer) (rt : Runtime) : Runtime :=
  mkRuntime (world rt) (session rt) (calls rt) (console rt) (alerts rt)
            t (navigations rt).
Definition withNavigations (n : list (Page * option string)) (rt : Runtime)
  : Runtime :=
  mkRuntime (world rt) (session rt) (calls rt) (console rt) (alerts rt)
            (timers rt) n.

(** *** The handler monad: state and exceptions *)

Definition M (A : Type) : Type := Runtime -> Runtime * (Thrown + A).

Definition ret {A} (a : A) : M A := fun rt => (rt, inr a).

Definition bind {A B} (m : M A) (k : A -> M B) : M B :=
  fun rt =>
    match m rt with
    | (rt1, inr a) => k a rt1
    | (rt1, inl e) => (rt1, inl e)
    end.

(** [try body catch (e) handler(e) finally cleanup] *)
Definition tryCatchFinally (body : M unit) (handler : Thrown -> M unit)
           (cleanup : M unit) : M unit :=
  fun rt =>
    let '(rt2, r2) :=
      match body rt with
      | (rt1, inr a) => (rt1, inr a)
      | (rt1, inl e) => handler e rt1
      end in
    match cleanup rt2 with
    | (rt3, inr _) => (rt3, r2)
    | (rt3, inl e) => (rt3, inl e)
    end.

(** A state setter of the page. *)
Definition set (f : Session -> Session) : M unit :=
  fun rt => (withSession (f (session rt)) rt, inr tt).

(** A call to the API: the call and how it ended are appended to
    [calls]. *)
Definition invoke {A} (q : Request) (f : World -> World * (Thrown + A))
           (wrap : A -> Response) : M A :=
  fun rt =>
    let '(w, r) := f (world rt) in
    let resp := match r with inl e => Threw e | inr a => wrap a end in
    (withCalls (calls rt ++ [(q, resp)]) (withWorld w rt), r).

Definition consoleError (e : Thrown) : M unit :=
  fun rt => (withConsole (console rt ++ [e]) rt, inr tt).

Definition alert (msg : string) : M unit :=
  fun rt => (withAlerts (alerts rt ++ [msg]) rt, inr tt).

(** [setTimeout(cb, ms)]; the page never keeps the handle. *)
Definition setTimeout (cb : Callback) (ms : Z) : M unit :=
  fun rt => (withTimers (timers rt ++ [mkTimer ms cb]) rt, inr tt).

(** The [onNavigate] prop: the request goes to the parent. *)
Definition onNavigate (p : Page) (rid : option string) : M unit :=
  fun rt => (withNavigations (navigations rt ++ [(p, rid)]) rt, inr tt).

End Model.

Arguments VideoRecording : clear implicits.
Arguments Request : clear implicits.
Arguments Response : clear implicits.
Arguments Collaborators : clear implicits.
Arguments Runtime : clear implicits.
Arguments M : clear implicits.

Declare Scope handler_scope.
Delimit Scope handler_scope with handler.
Notation "'let*' x := m 'in' k" := (bind m (fun x => k))
  (at level 10, x name, m at level 100, k at level 200) : handler_scope.
Notation "m ;; k" := (bind m (fun _ => k))
  (at level 100, k at level 200, right associativity) : handler_scope.

Section Handlers.

Context {Value World : Type}.

(** The page's collaborators and the value of [useAuth().user] at the
    render the handlers close over. *)
Variable api : Collaborators Value World.
Variable user : option User.

Local Abbreviation Handler := (M Value World).
Local Open Scope handler_scope.

(** [({ id, created_at, ...rest }) => rest] and
    [const { id: _id, created_at: _created, ...riskToSave } = o]: a
    copy of the object without these two properties. *)
Definition withoutIdCreatedAt (o : gmap string Value) : gmap string Value :=
  delete "created_at" (delete "id" o).

Definition handleRecordingComplete (blob : Blob) : Handler unit :=
  set (setVideoBlob (Some blob)).

Definition handleFileSelect (file : File) : Handler unit :=
  set (setVideoFile (Some file)).

(** The [try] block of [handleProcess], for the user [u] and the
    [videoFile] of the render. *)
Definition processBody (u : User) (vf : option File) : Handler unit :=
  set (setUploading true) ;;
  invoke (EnsureUserProfile (user_id u) (orElse (user_email u) ""))
         (ensureUserProfile api (user_id u) (orElse (user_email u) ""))
         (fun _ => ReturnedVoid) ;;
  fun rt =>
  (let fileName :=
     orElse (option_map name vf)
            ("recording-" ++ numberToString (dateNow api (world rt)) ++ ".webm") in
   let duration := match vf with Some _ => 60 | None => 60 end in
   let* recording :=
     invoke (CreateRecording (user_id u) fileName duration)
            (createRecording api (user_id u) fileName duration)
            ReturnedRecording in
   let* heartRateData :=
     invoke (SimulateHeartRateData (recording_id recording) duration fileName)
            (simulateHeartRateData api (recording_id recording) duration fileName)
            ReturnedRows in
   let* riskPrediction :=
     invoke (SimulateRiskPrediction (recording_id recording) heartRateData fileName)
            (simulateRiskPrediction api (recording_id recording) heartRateData fileName)
            ReturnedObject in
   let heartRateDataToSave := List.map withoutIdCreatedAt heartRateData in
   invoke (SaveHeartRateData heartRateDataToSave)
          (saveHeartRateData api heartRateDataToSave)
          (fun _ => ReturnedVoid) ;;
   let riskToSave := withoutIdCreatedAt riskPrediction in
   invoke (SaveRiskPrediction riskToSave)
          (saveRiskPrediction api riskToSave)
          (fun _ => ReturnedVoid) ;;
   set (setRecordingId (Some (recording_id recording))) ;;
   set (setUploadComplete true) ;;
   setTimeout (CallOnNavigate analysis (Some (recording_id recording))) 2000) rt.

(** The [catch] block. *)
Definition processFailed (e : Thrown) : Handler unit :=
  consoleError e ;;
  alert ("Failed to process video: " ++
         match e with
         | ErrorObject message => message
         | NotAnError _ => "Unknown error"
         end).

Definition handleProcess : Handler unit :=
  fun rt =>
    match user with
    | None => ret tt rt
    | Some u =>
        if negb (bool_decide (is_Some (videoBlob (session rt)))) &&
           negb (bool_decide (is_Some (videoFile (session rt))))
        then ret tt rt
        else tryCatchFinally (processBody u (videoFile (session rt)))
                             processFailed
                             (set (setUploading false)) rt
    end.

Definition handleReset : Handler unit :=
  set (setVideoBlob None) ;;
  set (setVideoFile None) ;;
  set (setUploadComplete false) ;;
  set (setMode select).

(** *** The controls the page renders *)

Inductive Button :=
| BackToDashboard
| RecordVideo
| UploadVideo
| RetakeVideo
| AnalyzeRecording
| ChooseDifferentFile
| AnalyzeFile.

Definition isSelect (m : Mode) : bool :=
  match m with select => true | _ => false end.

(** The condition under which the JSX renders the button. *)
Definition rendered (s : Session) (b : Button) : bool :=
  match b with
  | BackToDashboard => true
  | RecordVideo | UploadVideo => isSelect (mode s)
  | RetakeVideo | AnalyzeRecording =>
      bool_decide (is_Some (videoBlob s)) && negb (uploadComplete s)
  | ChooseDifferentFile | AnalyzeFile =>
      bool_decide (is_Some (videoFile s)) && negb (uploadComplete s)
  end.

(** The [disabled] attribute. *)
Definition disabled (s : Session) (b : Button) : bool :=
  match b with
  | RetakeVideo | AnalyzeRecording | ChooseDifferentFile | AnalyzeFile =>
      uploading s
  | BackToDashboard | RecordVideo | UploadVideo => false
  end.

(** The [onClick] attribute. *)
Definition onClick (b : Button) : Handler unit :=
  match b with
  | BackToDashboard => onNavigate dashboard None
  | RecordVideo => set (setMode record)
  | UploadVideo => set (setMode upload)
  | RetakeVideo | ChooseDifferentFile => handleReset
  | AnalyzeRecording | AnalyzeFile => handleProcess
  end.

(** A click of the user: a button that is not on the page or is
    disabled dispatches nothing. *)
Definition click (b : Button) : Handler unit :=
  fun rt =>
    if rendered (session rt) b && negb (disabled (session rt) b)
    then onClick b rt
    else ret tt rt.

(** *** Timers and teardown *)

Definition runCallback (cb : Callback) : Handler unit :=
  match cb with
  | CallOnNavigate p rid => onNavigate p rid
  end.

Fixpoint runCallbacks (cbs : list Callback) : Handler unit :=
  match cbs with
  | [] => ret tt
  | cb :: rest => runCallback cb ;; runCallbacks rest
  end.

Definition isDue (ms : Z) (t : Timer) : bool := delay t <=? ms.

(** [ms] milliseconds pass: the timers whose delay has elapsed fire in
    the order they were set, the others stay pending with what is left
    of their delay. *)
Definition elapse (ms : Z) : Handler unit :=
  fun rt =>
    let due := List.filter (isDue ms) (timers rt) in
    let pending :=
      List.map (fun t => mkTimer (delay t - ms) (callback t))
               (List.filter (fun t => negb (isDue ms t)) (timers rt)) in
    runCallbacks (List.map callback due) (withTimers pending rt).

(** The cleanup functions the page registers with [useEffect]: it
    calls [useEffect] nowhere, and [clearTimeout] nowhere. *)
Definition effectCleanups : list (Handler unit) := [].

(** React unmounting the page runs its effect cleanups. *)
Definition unmount : Handler unit :=
  List.fold_right (fun c k => c ;; k) (ret tt) effectCleanups.

End Handlers.

(** *** Observing one run of a handler *)

Section Observations.

Context {Value World : Type}.

(** The API calls made between the runtime [rt] and the later runtime
    [rt']. *)
Definition newCalls (rt rt' : Runtime Value World)
  : list (Request Value * Response Value) :=
  drop (length (calls rt)) (calls rt').

(** No call of the trace threw. *)
Definition allReturned (trace : list (Request Value * Response Value)) : bool :=
  forallb (fun c => negb (threw (snd c))) trace.

(** The text the [catch] block of [handleProcess] builds for a thrown
    value. *)
Definition failureAlert (e : Thrown) : string :=
  "Failed to process video: " ++
  match e with
  | ErrorObject message => message
  | NotAnError _ => "Unknown error"
  end.

(** The session holds a recorded blob or a selected file. *)
Definition hasArtifact (s : Session) : Prop :=
  is_Some (videoBlob s) \/ is_Some (videoFile s).

(** The spec's words for what is submitted: the object [saved] is the
    object [generated] with the server-assigned fields [id] and
    [created_at] removed and every other field unchanged. *)
Definition strippedOf (generated saved : gmap string Value) : Prop :=
  saved !! "id" = None /\
  saved !! "created_at" = None /\
  forall k : string, k <> "id" -> k <> "created_at" -> saved !! k = generated !! k.

End Observations.

(** *** Reading the log of calls against the API *)

Section Replay.

Context {Value World : Type}.
Variable api : Collaborators Value World.

(** The call of the API that a logged request stands for, made on the
    world [w]: the world after it, and how it ended. *)
Definition perform (q : Request Value) (w : World) : World * Response Value :=
  match q with
  | EnsureUserProfile userId email =>
      let '(w', r) := ensureUserProfile api userId email w in
      (w', match r with inl e => Threw e | inr _ => ReturnedVoid end)
  | CreateRecording userId fileName duration =>
      let '(w', r) := createRecording api userId fileName duration w in
      (w', match r with inl e => Threw e | inr a => ReturnedRecording a end)
  | SimulateHeartRateData rid duration fileName =>
      let '(w', r) := simulateHeartRateData api rid duration fileName w in
      (w', match r with inl e => Threw e | inr a => ReturnedRows a end)
  | SimulateRiskPrediction rid heartRateData fileName =>
      let '(w', r) := simulateRiskPrediction api rid heartRateData fileName w in
      (w', match r with inl e => Threw e | inr a => ReturnedObject a end)
  | SaveHeartRateData rows =>
      let '(w', r) := saveHeartRateData api rows w in
      (w', match r with inl e => Threw e | inr _ => ReturnedVoid end)
  | SaveRiskPrediction row =>
      let '(w', r) := saveRiskPrediction api row w in
      (w', match r with inl e => Threw e | inr _ => ReturnedVoid end)
  end.

(** The trace is what the API really did, from the world [w] to the world
    [w']: each logged request, made on the world the previous call left,
    ended as logged. *)
Fixpoint realises (w : World) (trace : list (Request Value * Response Value))
         (w' : World) : Prop :=
  match trace with
  | [] => w' = w
  | c :: rest =>
      snd (perform (fst c) w) = snd c /\
      realises (fst (perform (fst c) w)) rest w'
  end.

End Replay.

(** *** What can happen to the page *)

Section Events.

Context {Value World : Type}.
Variable api : Collaborators Value World.
Variable user : option User.

Local Abbreviation Handler := (M Value World).
Local Open Scope handler_scope.

(** The buttons that run [handleReset] or [handleProcess]. *)
Definition fourButtons : list Button :=
  [RetakeVideo; AnalyzeRecording; ChooseDifferentFile; AnalyzeFile].

Definition isUpload (m : Mode) : bool :=
  match m with upload => true | _ => false end.

(** The condition under which the JSX mounts [VideoUpload]. *)
Definition uploaderMounted (s : Session) : bool :=
  isUpload (mode s) && negb (bool_decide (is_Some (videoFile s))) &&
  negb (uploadComplete s).

(** The events of the page: a click; the recorder calling
    [onRecordingComplete] (the recorder is not part of these files: its
    callback is taken to arrive at any time); a change of the file input or
    a drop on the drop zone of the upload widget, which is then in some
    state [w]; time passing. *)
Inductive Event :=
| Clicked (b : Button)
| RecordingCompleted (blob : Blob)
| FilesChosen (w : VideoUpload.State) (files : option (list File))
| FilesDropped (w : VideoUpload.State) (files : option (list File))
| TimePassed (ms : Z).

(** The [onFileSelect] prop of the upload widget is [handleFileSelect]. *)
Definition onFileSelect (emitted : option File) : Handler unit :=
  match emitted with
  | Some f => handleFileSelect f
  | None => ret tt
  end.

Definition dispatch (ev : Event) : Handler unit :=
  fun rt =>
    match ev with
    | Clicked b => click api user b rt
    | RecordingCompleted blob => handleRecordingComplete blob rt
    | FilesChosen w files =>
        if uploaderMounted (session rt)
        then onFileSelect (snd (VideoUpload.handleChange files w)) rt
        else ret tt rt
    | FilesDropped w files =>
        if uploaderMounted (session rt)
        then onFileSelect (snd (VideoUpload.handleDrop files w)) rt
        else ret tt rt
    | TimePassed ms => elapse ms rt
    end.

Fixpoint run (evs : list Event) : Handler unit :=
  match evs with
  | [] => ret tt
  | ev :: rest => dispatch ev ;; run rest
  end.

(** The page as it is mounted: initial state, nothing emitted yet. *)
Definition mounted (w : World) : Runtime Value World :=
  mkRuntime w initialSession [] [] [] [] [].




End Events.

(** *** The pipeline, one [await] at a time

    [handleProcess] is an [async] function: it runs up to its first
    [await], and each time the awaited call settles it runs up to the
    next one.  In between, the page is rendered with the state of that
    moment and other events can reach it. *)

Section Async.

Context {Value World : Type}.
Variable api : Collaborators Value World.
Variable user : option User.

Local Abbreviation Handler := (M Value World).
Local Open Scope handler_scope.

(** Where [handleProcess] is suspended: the [await] it is at, how the
    awaited call is going to settle, and the local variables that are
    still in use. *)
Inductive Suspended :=
| AwaitEnsureUserProfile (u : User) (vf : option File) (result : Thrown + unit)
| AwaitCreateRecording (fileName : string) (duration : Z)
    (result : Thrown + VideoRecording Value)
| AwaitSaveHeartRateData (recording : VideoRecording Value)
    (riskPrediction : gmap string Value) (result : Thrown + unit)
| AwaitSaveRiskPrediction (recording : VideoRecording Value)
    (result : Thrown + unit).

(** The [catch] block, then the [finally] block: the function ends. *)
Definition rejected (e : Thrown) (rt : Runtime Value World)
  : Runtime Value World * option Suspended :=
  (fst ((processFailed e ;; set (setUploading false)) rt), None).

(** From the call of [handleProcess] to its first [await]. *)
Definition beginProcess (rt : Runtime Value World)
  : Runtime Value World * option Suspended :=
  match user with
  | None => (rt, None)
  | Some u =>
      if negb (bool_decide (is_Some (videoBlob (session rt)))) &&
         negb (bool_decide (is_Some (videoFile (session rt))))
      then (rt, None)
      else
        let vf := videoFile (session rt) in
        let rt1 := fst (set (setUploading true) rt) in
        let '(rt2, result) :=
          invoke (EnsureUserProfile (user_id u) (orElse (user_email u) ""))
                 (ensureUserProfile api (user_id u) (orElse (user_email u) ""))
                 (fun _ => ReturnedVoid) rt1 in
        (rt2, Some (AwaitEnsureUserProfile u vf result))
  end.

(** From one [await] to the next, or to the end. *)
Definition resumeProcess (k : Suspended) (rt : Runtime Value World)
  : Runtime Value World * option Suspended :=
  match k with
  | AwaitEnsureUserProfile u vf (inl e) => rejected e rt
  | AwaitEnsureUserProfile u vf (inr _) =>
      let fileName :=
        orElse (option_map name vf)
               ("recording-" ++ numberToString (dateNow api (world rt)) ++ ".webm") in
      let duration := match vf with Some _ => 60 | None => 60 end in
      let '(rt1, result) :=
        invoke (CreateRecording (user_id u) fileName duration)
               (createRecording api (user_id u) fileName duration)
               ReturnedRecording rt in
      (rt1, Some (AwaitCreateRecording fileName duration result))
  | AwaitCreateRecording fileName duration (inl e) => rejected e rt
  | AwaitCreateRecording fileName duration (inr recording) =>
      match invoke (SimulateHeartRateData (recording_id recording) duration fileName)
                   (simulateHeartRateData api (recording_id recording) duration fileName)
                   ReturnedRows rt with
      | (rt1, inl e) => rejected e rt1
      | (rt1, inr heartRateData) =>
          match invoke (SimulateRiskPrediction (recording_id recording)
                                               heartRateData fileName)
                       (simulateRiskPrediction api (recording_id recording)
                                               heartRateData fileName)
                       ReturnedObject rt1 with
          | (rt2, inl e) => rejected e rt2
          | (rt2, inr riskPrediction) =>
              let heartRateDataToSave := List.map withoutIdCreatedAt heartRateData in
              let '(rt3, result) :=
                invoke (SaveHeartRateData heartRateDataToSave)
                       (saveHeartRateData api heartRateDataToSave)
                       (fun _ => ReturnedVoid) rt2 in
              (rt3, Some (AwaitSaveHeartRateData recording riskPrediction result))
          end
      end
  | AwaitSaveHeartRateData recording riskPrediction (inl e) => rejected e rt
  | AwaitSaveHeartRateData recording riskPrediction (inr _) =>
      let riskToSave := withoutIdCreatedAt riskPrediction in
      let '(rt1, result) :=
        invoke (SaveRiskPrediction riskToSave)
               (saveRiskPrediction api riskToSave)
               (fun _ => ReturnedVoid) rt in
      (rt1, Some (AwaitSaveRiskPrediction recording result))
  | AwaitSaveRiskPrediction recording (inl e) => rejected e rt
  | AwaitSaveRiskPrediction recording (inr _) =>
      (fst ((set (setRecordingId (Some (recording_id recording))) ;;
             set (setUploadComplete true) ;;
             setTimeout (CallOnNavigate analysis (Some (recording_id recording))) 2000 ;;
             set (setUploading false)) rt),
       None)
  end.

(** The page together with the runs of [handleProcess] that are
    suspended at an [await]. *)
Record System := mkSystem {
  page : Runtime Value World;
  pending : list Suspended
}.

(** What can occur: an event of the page, or the call that the [i]-th
    suspended run awaits settles. *)
Inductive Occurrence :=
| Happens (ev : Event)
| Settles (i : nat).

Definition optionList {A} (o : option A) : list A :=
  match o with Some a => [a] | None => [] end.

Definition occur (o : Occurrence) (sys : System) : System :=
  match o with
  | Happens (Clicked b) =>
      if rendered (session (page sys)) b && negb (disabled (session (page sys)) b)
      then
        match b with
        | AnalyzeRecording | AnalyzeFile =>
            let '(rt, k) := beginProcess (page sys) in
            mkSystem rt (pending sys ++ optionList k)
        | BackToDashboard | RecordVideo | UploadVideo
        | RetakeVideo | ChooseDifferentFile =>
            mkSystem (fst (onClick api user b (page sys))) (pending sys)
        end
      else sys
  | Happens ev => mkSystem (fst (dispatch api user ev (page sys))) (pending sys)
  | Settles i =>
      match pending sys !! i with
      | Some k =>
          let '(rt, k') := resumeProcess k (page sys) in
          mkSystem rt (take i (pending sys) ++ optionList k' ++
                       drop (S i) (pending sys))
      | None => sys
      end
  end.

Definition occurAll (os : list Occurrence) (sys : System) : System :=
  fold_left (fun s o => occur o s) os sys.

(** The page as it is mounted, with no run in flight. *)
Definition boot (w : World) : System := mkSystem (mounted w) [].

(** At most one run is in flight, [uploading] tells whether one is, and
    a page that is not complete has no recording id. *)
Definition coherent (sys : System) : Prop :=
  (length (pending sys) <= 1)%nat /\
  (pending sys = [] <-> uploading (session (page sys)) = false) /\
  (uploadComplete (session (page sys)) = false ->
   recordingId (session (page sys)) = None).

(** An event with the awaited calls of the run it may have started
    settling at once, one after the other. *)
Definition atOnce (ev : Event) : list Occurrence :=
  [Happens ev; Settles 0; Settles 0; Settles 0; Settles 0].

End Async.

End RecordingPage.

(** ** A concrete outside world, to run the page on *)

Module Demo.

Import RecordingPage.

Inductive Json :=
| JStr (s : string)
| JNum (n : Z).

(** The clock, and the step that is going to throw (with what), if any. *)
Record World := mkWorld {
  clock : Z;
  failing : option (Step * Thrown)
}.

Definition attempt {A} (st : Step) (a : A) (w : World) : World * (Thrown + A) :=
  match failing w with
  | Some (st', e) => if bool_decide (st = st') then (w, inl e) else (w, inr a)
  | None => (w, inr a)
  end.

Definition row (rid : string) (t bpm : Z) : gmap string Json :=
  <["id" := JStr "local-row"]>
    (<["created_at" := JStr "2025-10-08T21:42:04Z"]>
       (<["recording_id" := JStr rid]>
          (<["timestamp_ms" := JNum t]>
             (<["heart_rate_bpm" := JNum bpm]> ∅)))).

Definition prediction (rid : string) : gmap string Json :=
  <["id" := JStr "local-risk"]>
    (<["created_at" := JStr "2025-10-08T21:42:05Z"]>
       (<["recording_id" := JStr rid]>
          (<["risk_level" := JStr "low"]>
             (<["risk_score" := JNum 12]> ∅)))).

Definition api : Collaborators Json World :=
  {| ensureUserProfile := fun _ _ => attempt StepEnsureProfile tt;
     createRecording := fun _ fileName _ =>
       attempt StepCreateRecording
               (mkVideoRecording "rec-1" (<["file_name" := JStr fileName]> ∅));
     simulateHeartRateData := fun rid _ _ =>
       attempt StepGenerateSeries [row rid 0 72; row rid 1000 75];
     simulateRiskPrediction := fun rid _ _ =>
       attempt StepGeneratePrediction (prediction rid);
     saveHeartRateData := fun _ => attempt StepPersistSeries tt;
     saveRiskPrediction := fun _ => attempt StepPersistPrediction tt;
     dateNow := clock |}.

Definition alice : User := mkUser "user-1" (Some "alice@example.org").

Definition clip : File := mkFile "clip.mp4" (50 * 1024 * 1024) "video/mp4".

Definition capture : Blob := mkBlob 4096 "video/webm".

(** The page after [clip] was selected in upload mode. *)
Definition reviewingFile : Session :=
  {| mode := upload; videoBlob := None; videoFile := Some clip;
     uploading := false; uploadComplete := false; recordingId := None |}.

(** The page after a recording was captured in record mode. *)
Definition reviewingBlob : Session :=
  {| mode := record; videoBlob := Some capture; videoFile := None;
     uploading := false; uploadComplete := false; recordingId := None |}.

Definition start (w : World) (s : Session) : Runtime Json World :=
  mkRuntime w s [] [] [] [] [].

Definition calm : World := mkWorld 1700000000000 None.

(** Choose upload, pick [clip] in the file dialog, press Analyze, wait. *)
Definition uploadAndAnalyze : list Event :=
  [Clicked UploadVideo;
   FilesChosen (VideoUpload.mkState false None None) (Some [clip]);
   Clicked AnalyzeFile;
   TimePassed 2000].

(** Choose upload, pick [clip], press Analyze: the first call is awaited. *)
Definition analyzeInFlight : list Occurrence :=
  [Happens (Clicked UploadVideo);
   Happens (FilesChosen (VideoUpload.mkState false None None) (Some [clip]));
   Happens (Clicked AnalyzeFile)].

(** Choose upload, pick [clip]: the file is under review. *)
Definition fileUnderReview : list Occurrence :=
  [Happens (Clicked UploadVideo);
   Happens (FilesChosen (VideoUpload.mkState false None None) (Some [clip]))].

(** A world where step [st] throws a plain object that carries [msg]. *)
Definition brokenPlain (st : Step) (msg : string) : World :=
  mkWorld 1700000000000 (Some (st, NotAnError (Some msg))).

Definition emptyWidget : VideoUpload.State := VideoUpload.mkState false None None.

(** 150 MiB of text. *)
Definition bigNotes : File := mkFile "notes.txt" (150 * 1024 * 1024) "text/plain".

(** 150 MiB of video. *)
Definition bigClip : File := mkFile "clip.mov" (150 * 1024 * 1024) "".

Definition broken (st : Step) (msg : string) : World :=
  mkWorld 1700000000000 (Some (st, ErrorObject msg)).

End Demo.

(** * Properties *)

(** ** The regular expression search *)

Module RegexFacts.

Import Regex.

Lemma char_eq_i_true a b : char_eq_i a b = true <-> canonicalize a = canonicalize b.
Proof. unfold char_eq_i. apply Ascii.eqb_eq. Qed.

(** The literal followed by the end of input matches exactly the
    strings that fold to the same string as the literal. *)
Lemma literal_i_whole p : forall s,
  literal_i p s = Some EmptyString <-> upper p = upper s.
Proof.
  induction p as [|a p IH]; intros [|b s]; simpl.
  - tauto.
  - split; discriminate.
  - split; discriminate.
  - destruct (char_eq_i a b) eqn:E.
    + apply char_eq_i_true in E. rewrite IH. split.
      * intros ->. now rewrite E.
      * now intros [= _ ->].
    + split; [discriminate|]. intros [= E' _].
      apply char_eq_i_true in E'. congruence.
Qed.

Lemma alternative_matches alts rest :
  existsb (fun alt => match literal_i alt rest with
                      | Some tl => at_end tl
                      | None => false
                      end) alts = true
  <-> exists alt, In alt alts /\ upper alt = upper rest.
Proof.
  rewrite existsb_exists. split; intros (alt & Hin & H); exists alt; split; auto.
  - apply literal_i_whole. destruct (literal_i alt rest) as [[|? ?]|]; simpl in H;
      congruence.
  - apply literal_i_whole in H. now rewrite H.
Qed.

(** What a successful search means: the string ends with a dot followed
    by one of the alternatives, up to case. *)
Lemma search_iff alts s :
  search alts s = true <->
  exists stem ext, s = stem ++ "." ++ ext /\
                   exists alt, In alt alts /\ upper alt = upper ext.
Proof.
  induction s as [|c s IH].
  - simpl. split; [discriminate|].
    intros (stem & ext & H & _). destruct stem; discriminate.
  - cbn [search]. rewrite orb_true_iff, IH. unfold dot_alts_end.
    rewrite andb_true_iff, alternative_matches, Ascii.eqb_eq. split.
    + intros [[-> H] | (stem & ext & -> & H)].
      * exists EmptyString, s. auto.
      * exists (String c stem), ext. auto.
    + intros ([|c' stem] & ext & Heq & H); simpl in Heq.
      * injection Heq as -> ->. left. auto.
      * injection Heq as -> ->. right. eauto.
Qed.

End RegexFacts.

(** ** VideoUpload: the validator *)

Module VideoUploadFacts.

Import VideoUpload.

Lemma includes_In l t : includes l t = true <-> In t l.
Proof.
  unfold includes. rewrite existsb_exists. split.
  - intros (x & Hin & H). apply String.eqb_eq in H. now subst.
  - intros H. exists t. split; [assumption | apply String.eqb_refl].
Qed.

(** The extension test accepts exactly the names of the form
    [stem.ext] where [ext] is mp4, webm, mov or avi in any letter case. *)
Lemma matchesExtension_iff n :
  matchesExtension n = true <->
  exists stem ext, n = stem ++ "." ++ ext /\
                   In (Regex.upper ext) ["MP4"; "WEBM"; "MOV"; "AVI"].
Proof.
  unfold matchesExtension. rewrite RegexFacts.search_iff.
  split; intros (stem & ext & -> & H); exists stem, ext; split; auto.
  - destruct H as (alt & Hin & <-).
    unfold extAlternatives in Hin. simpl in Hin.
    destruct Hin as [<- | [<- | [<- | [<- | []]]]]; simpl; auto.
  - simpl in H. destruct H as [H | [H | [H | [H | []]]]];
      [exists "mp4" | exists "webm" | exists "mov" | exists "avi"];
      (split; [unfold extAlternatives; simpl; auto | now rewrite <- H]).
Qed.

Example extension_any_case : matchesExtension "CLIP.MoV" = true.
Proof. reflexivity. Qed.

Example extension_must_end_name : matchesExtension "clip.mov.txt" = false.
Proof. reflexivity. Qed.

Example extension_needs_dot : matchesExtension "webm" = false.
Proof. reflexivity. Qed.

(** The scenarios of the spec: 150 MB named clip.mov, and notes.txt of
    type text/plain. *)
Example scenario_oversize_clip :
  validateFile Demo.bigClip Demo.emptyWidget
  = (false, setError (Some sizeMessage) Demo.emptyWidget).
Proof. reflexivity. Qed.

Example scenario_notes_txt :
  validateFile (mkFile "notes.txt" 1024 "text/plain") Demo.emptyWidget
  = (false, setError (Some formatMessage) Demo.emptyWidget).
Proof. reflexivity. Qed.

(** C1.  A file whose MIME type is one of the four accepted types or
    whose name matches the extension pattern, and whose size is at most
    100 * 1024 * 1024 bytes, is accepted and the error is cleared; and
    the format message is set only when the MIME test and the extension
    test both fail. *)
Theorem validateFile_accepts (file : File) (st : State) :
  maxSize = 104857600 /\
  ((In (type file) validTypes \/ matchesExtension (name file) = true) ->
   size file <= maxSize ->
   validateFile file st = (true, setError None st)) /\
  (error (snd (validateFile file st)) = Some formatMessage ->
   ~ In (type file) validTypes /\ matchesExtension (name file) = false).
Proof.
  split; [reflexivity|]. unfold validateFile. split.
  - intros Hfmt Hsize.
    assert (includes validTypes (type file) || matchesExtension (name file) = true) as H.
    { apply orb_true_iff. destruct Hfmt as [H|H]; [left; now apply includes_In | now right]. }
    apply orb_true_iff in H.
    replace (negb (includes validTypes (type file)) &&
             negb (matchesExtension (name file))) with false
      by (destruct H as [-> | ->]; simpl; now rewrite ?andb_false_r).
    apply Z.ltb_ge in Hsize. now rewrite Hsize.
  - pose proof (includes_In validTypes (type file)) as HI.
    destruct (includes validTypes (type file));
      destruct (matchesExtension (name file)); cbn [negb andb];
      try (destruct (maxSize <? size file); cbn; discriminate).
    intros _. split; [|reflexivity].
    intros Hin. apply HI in Hin. discriminate.
Qed.

Lemma validateFile_accepts_witness :
  maxSize = 104857600 /\
  validateFile Demo.clip Demo.emptyWidget = (true, setError None Demo.emptyWidget).
Proof.
  destruct (validateFile_accepts Demo.clip Demo.emptyWidget) as (Hmax & Hacc & _).
  split; [exact Hmax|].
  apply Hacc; [left; simpl; auto | vm_compute; discriminate].
Defined.

(** C2, as the code has it.  A file larger than 100 * 1024 * 1024 bytes
    is always rejected; the reason is the size message when the file
    passes the format test (accepted MIME type or matching extension) and
    the format message otherwise, and the two messages differ. *)
Theorem validateFile_rejects_oversize (file : File) (st : State) :
  maxSize < size file ->
  fst (validateFile file st) = false /\
  error (snd (validateFile file st)) =
    Some (if includes validTypes (type file) || matchesExtension (name file)
          then sizeMessage else formatMessage) /\
  sizeMessage <> formatMessage.
Proof.
  intros Hsize. apply Z.ltb_lt in Hsize. unfold validateFile.
  destruct (includes validTypes (type file));
    destruct (matchesExtension (name file)); simpl; rewrite ?Hsize; simpl;
    repeat split; discriminate.
Qed.

Lemma validateFile_rejects_oversize_witness :
  fst (validateFile Demo.bigClip Demo.emptyWidget) = false /\
  error (snd (validateFile Demo.bigClip Demo.emptyWidget)) = Some sizeMessage.
Proof.
  destruct (validateFile_rejects_oversize Demo.bigClip Demo.emptyWidget) as (H1 & H2 & _).
  - vm_compute. reflexivity.
  - split; [exact H1 | exact H2].
Defined.

(** C2 as stated fails: a file of 150 MiB that is no video by type or
    name is rejected with the format message, not the size message. *)
Lemma validateFile_oversize_format_reason :
  maxSize < size Demo.bigNotes /\
  validateFile Demo.bigNotes Demo.emptyWidget =
    (false, setError (Some formatMessage) Demo.emptyWidget) /\
  error (snd (validateFile Demo.bigNotes Demo.emptyWidget)) <> Some sizeMessage.
Proof.
  split; [vm_compute; reflexivity|]. split; [reflexivity|].
  vm_compute. discriminate.
Qed.

End VideoUploadFacts.

(** ** RecordingPage: the pipeline and the session *)

Module RecordingPageFacts.

Import RecordingPage.
Local Open Scope list_scope.

Section Facts.

Context {Value World : Type}.
Variable api : Collaborators Value World.

Local Abbreviation Rt := (Runtime Value World).

Lemma newCalls_app (rt rt' : Rt) trace :
  calls rt' = calls rt ++ trace -> newCalls rt rt' = trace.
Proof. unfold newCalls. intros ->. apply drop_app_length. Qed.

Lemma nominal_duration (vf : option File) :
  match vf with Some _ => 60 | None => 60 end = 60.
Proof. now destruct vf. Qed.

Lemma artifact_guard (s : Session) :
  hasArtifact s ->
  negb (bool_decide (is_Some (videoBlob s))) &&
  negb (bool_decide (is_Some (videoFile s))) = false.
Proof.
  intros [H|H]; rewrite (bool_decide_eq_true_2 _ H); simpl;
    now rewrite ?andb_false_r.
Qed.

Ltac outcome_trace :=
  do 2 eexists; split; [reflexivity|]; cbn; rewrite <- ?app_assoc; cbn;
  split; [reflexivity|]; split; [reflexivity|].

Ltac thrown_here :=
  outcome_trace; left;
  match goal with
  | |- exists good q e, ?t = @?rhs good q e /\ @?rest good q e =>
      exists (removelast t); cbn
  end;
  do 2 eexists; repeat split; try reflexivity; cbn; lia.

(** One run of [handleProcess] with a user and an artifact: either a
    call threw, and nothing after it ran but the [catch] and [finally]
    blocks, or the six calls returned. *)
Lemma handleProcess_outcome (u : User) (rt : Rt) :
  hasArtifact (session rt) ->
  exists rt' trace,
    handleProcess api (Some u) rt = (rt', inr tt) /\
    calls rt' = calls rt ++ trace /\
    navigations rt' = navigations rt /\
    ((exists good q e,
        trace = good ++ [(q, Threw e)] /\
        allReturned good = true /\
        (length good < 6)%nat /\
        List.map (fun c => stepOf (fst c)) trace =
          take (S (length good)) pipelineOrder /\
        session rt' = setUploading false (session rt) /\
        timers rt' = timers rt /\
        console rt' = console rt ++ [e] /\
        alerts rt' = alerts rt ++ [failureAlert e])
     \/
     (exists w1 fileName r rows pred,
        ensureUserProfile api (user_id u) (orElse (user_email u) "") (world rt)
          = (w1, inr tt) /\
        fileName =
          orElse (option_map name (videoFile (session rt)))
                 ("recording-" ++ numberToString (dateNow api w1) ++ ".webm")%string /\
        trace =
          [(EnsureUserProfile (user_id u) (orElse (user_email u) ""), ReturnedVoid);
           (CreateRecording (user_id u) fileName 60, ReturnedRecording r);
           (SimulateHeartRateData (recording_id r) 60 fileName, ReturnedRows rows);
           (SimulateRiskPrediction (recording_id r) rows fileName, ReturnedObject pred);
           (SaveHeartRateData (List.map withoutIdCreatedAt rows), ReturnedVoid);
           (SaveRiskPrediction (withoutIdCreatedAt pred), ReturnedVoid)] /\
        session rt' =
          setUploading false
            (setUploadComplete true
               (setRecordingId (Some (recording_id r)) (session rt))) /\
        timers rt' =
          timers rt ++
          [mkTimer 2000 (CallOnNavigate analysis (Some (recording_id r)))] /\
        console rt' = console rt /\
        alerts rt' = alerts rt)).
Proof.
  intros Hart. unfold handleProcess. rewrite (artifact_guard _ Hart).
  unfold tryCatchFinally, processBody, processFailed, bind, invoke, set,
    setTimeout, consoleError, alert, ret.
  cbn. rewrite !nominal_duration.
  destruct (ensureUserProfile api _ _ _) as [w1 [e|[]]] eqn:E1; cbn;
    [thrown_here|].
  destruct (createRecording api _ _ _ _) as [w2 [e|r]] eqn:E2; cbn;
    [thrown_here|].
  destruct (simulateHeartRateData api _ _ _ _) as [w3 [e|rows]] eqn:E3; cbn;
    [thrown_here|].
  destruct (simulateRiskPrediction api _ _ _ _) as [w4 [e|pred]] eqn:E4; cbn;
    [thrown_here|].
  destruct (saveHeartRateData api _ _) as [w5 [e|[]]] eqn:E5; cbn;
    [thrown_here|].
  destruct (saveRiskPrediction api _ _) as [w6 [e|[]]] eqn:E6; cbn;
    [thrown_here|].
  outcome_trace. right. exists w1. do 4 eexists.
  repeat split; reflexivity.
Qed.

Ltac open_pipeline Hart :=
  unfold handleProcess; rewrite (artifact_guard _ Hart);
  unfold tryCatchFinally, processBody, processFailed, bind, invoke, set,
    setTimeout, consoleError, alert, ret;
  cbn; rewrite ?nominal_duration.

Ltac use_results :=
  repeat (match goal with
          | H : _ = (_, _) |- _ => rewrite H; clear H
          end; cbn).

Ltac replayed :=
  unfold newCalls; cbn; rewrite <- ?app_assoc, drop_app_length;
  cbn [app]; cbn [realises perform fst snd]; use_results; repeat split.

(** The log is faithful, in failed runs too: the calls that one run of
    [handleProcess] adds to the log are the calls it made, in that order,
    each on the world the previous one left. *)
Lemma handleProcess_realises (u : User) (rt : Rt) :
  hasArtifact (session rt) ->
  realises api (world rt)
           (newCalls rt (fst (handleProcess api (Some u) rt)))
           (world (fst (handleProcess api (Some u) rt))).
Proof.
  intros Hart. open_pipeline Hart.
  destruct (ensureUserProfile api _ _ _) as [w1 [e|[]]] eqn:E1; cbn;
    [replayed|].
  destruct (createRecording api _ _ _ _) as [w2 [e|r]] eqn:E2; cbn;
    [replayed|].
  destruct (simulateHeartRateData api _ _ _ _) as [w3 [e|rows]] eqn:E3; cbn;
    [replayed|].
  destruct (simulateRiskPrediction api _ _ _ _) as [w4 [e|pred]] eqn:E4; cbn;
    [replayed|].
  destruct (saveHeartRateData api _ _) as [w5 [e|[]]] eqn:E5; cbn;
    [replayed|].
  destruct (saveRiskPrediction api _ _) as [w6 [e|[]]] eqn:E6; cbn;
    replayed.
Qed.

Ltac not_all_returned :=
  unfold newCalls; cbn; rewrite <- ?app_assoc, drop_app_length; cbn;
  discriminate.

(** A run in which every call returned, call by call: what the API was
    really given, on which world, and what it gave back. *)
Lemma handleProcess_success (u : User) (rt : Rt) :
  hasArtifact (session rt) ->
  allReturned (newCalls rt (fst (handleProcess api (Some u) rt))) = true ->
  exists w1 w2 w3 w4 w5 w6 fileName r rows pred,
    fileName =
      orElse (option_map name (videoFile (session rt)))
             ("recording-" ++ numberToString (dateNow api w1) ++ ".webm")%string /\
    ensureUserProfile api (user_id u) (orElse (user_email u) "") (world rt)
      = (w1, inr tt) /\
    createRecording api (user_id u) fileName 60 w1 = (w2, inr r) /\
    simulateHeartRateData api (recording_id r) 60 fileName w2 = (w3, inr rows) /\
    simulateRiskPrediction api (recording_id r) rows fileName w3 = (w4, inr pred) /\
    saveHeartRateData api (List.map withoutIdCreatedAt rows) w4 = (w5, inr tt) /\
    saveRiskPrediction api (withoutIdCreatedAt pred) w5 = (w6, inr tt) /\
    world (fst (handleProcess api (Some u) rt)) = w6 /\
    newCalls rt (fst (handleProcess api (Some u) rt)) =
      [(EnsureUserProfile (user_id u) (orElse (user_email u) ""), ReturnedVoid);
       (CreateRecording (user_id u) fileName 60, ReturnedRecording r);
       (SimulateHeartRateData (recording_id r) 60 fileName, ReturnedRows rows);
       (SimulateRiskPrediction (recording_id r) rows fileName, ReturnedObject pred);
       (SaveHeartRateData (List.map withoutIdCreatedAt rows), ReturnedVoid);
       (SaveRiskPrediction (withoutIdCreatedAt pred), ReturnedVoid)].
Proof.
  intros Hart. open_pipeline Hart.
  destruct (ensureUserProfile api _ _ _) as [w1 [e|[]]] eqn:E1; cbn;
    [not_all_returned|].
  destruct (createRecording api _ _ _ _) as [w2 [e|r]] eqn:E2; cbn;
    [not_all_returned|].
  destruct (simulateHeartRateData api _ _ _ _) as [w3 [e|rows]] eqn:E3; cbn;
    [not_all_returned|].
  destruct (simulateRiskPrediction api _ _ _ _) as [w4 [e|pred]] eqn:E4; cbn;
    [not_all_returned|].
  destruct (saveHeartRateData api _ _) as [w5 [e|[]]] eqn:E5; cbn;
    [not_all_returned|].
  destruct (saveRiskPrediction api _ _) as [w6 [e|[]]] eqn:E6; cbn;
    [not_all_returned|].
  intros _. exists w1, w2, w3, w4, w5, w6. do 4 eexists.
  repeat (split; [first [reflexivity | eassumption]|]).
  unfold newCalls. cbn. rewrite <- !app_assoc, drop_app_length. reflexivity.
Qed.

Lemma allReturned_app (a b : list (Request Value * Response Value)) :
  allReturned (a ++ b) = allReturned a && allReturned b.
Proof. apply forallb_app. Qed.

Lemma allReturned_In (trace : list (Request Value * Response Value)) q e :
  allReturned trace = true -> ~ In (q, Threw e) trace.
Proof.
  unfold allReturned. rewrite forallb_forall. intros H Hin.
  specialize (H _ Hin). discriminate.
Qed.

Lemma thrown_trace_not_returned good (q : Request Value) e :
  allReturned (good ++ [(q, Threw e)]) = false.
Proof. rewrite allReturned_app. cbn. apply andb_false_r. Qed.

(** In a trace that ends with the first call that threw, the thrown
    call is the last one. *)
Lemma thrown_is_last good (q : Request Value) e i c :
  allReturned good = true ->
  (good ++ [(q, Threw e)]) !! i = Some c ->
  threw (snd c) = true ->
  i = length good /\ c = (q, Threw e).
Proof.
  intros Hgood Hi Hc.
  destruct (decide (i < length good)%nat) as [Hlt|Hge].
  - rewrite lookup_app_l in Hi by assumption.
    unfold allReturned in Hgood. rewrite forallb_forall in Hgood.
    apply list_elem_of_lookup_2, list_elem_of_In, Hgood in Hi.
    rewrite Hc in Hi. discriminate.
  - rewrite lookup_app_r in Hi by lia.
    destruct (i - length good)%nat as [|n] eqn:En; cbn in Hi; [|discriminate].
    injection Hi as <-. split; [lia | reflexivity].
Qed.

(** C3.  With a user and an artifact, [handleProcess] calls the steps
    in the order ensure profile, create recording, generate series,
    generate prediction, persist series, persist prediction: the calls it
    logs are the calls it makes on the API, in that order, each on the
    world the previous one left; a call that throws is the last call
    made; and when every call returns, all six were made,
    [uploadComplete] is true and [recordingId] is the [id] of the
    recording that [createRecording] returned. *)
Theorem handleProcess_pipeline (u : User) (rt : Rt) :
  hasArtifact (session rt) ->
  let rt' := fst (handleProcess api (Some u) rt) in
  let trace := newCalls rt rt' in
  snd (handleProcess api (Some u) rt) = inr tt /\
  calls rt' = calls rt ++ trace /\
  realises api (world rt) trace (world rt') /\
  (exists k, (0 < k)%nat /\
             List.map (fun c => stepOf (fst c)) trace = take k pipelineOrder) /\
  (forall i c, trace !! i = Some c -> threw (snd c) = true ->
               S i = length trace) /\
  (allReturned trace = true ->
   List.map (fun c => stepOf (fst c)) trace = pipelineOrder /\
   uploadComplete (session rt') = true /\
   exists q r, trace !! 1%nat = Some (q, ReturnedRecording r) /\
               stepOf q = StepCreateRecording /\
               recordingId (session rt') = Some (recording_id r)).
Proof.
  intros Hart rt' trace.
  pose proof (handleProcess_realises u rt Hart) as Hreal.
  destruct (handleProcess_outcome u rt Hart)
    as (rt1 & tr & Hrun & Hcalls & _ & Hcase).
  subst rt' trace. rewrite Hrun in *. cbn [fst snd] in *.
  rewrite (newCalls_app _ _ _ Hcalls) in *.
  split; [reflexivity|]. split; [assumption|]. split; [assumption|].
  destruct Hcase as [(good & q & e & -> & Hgood & Hlen & Hsteps & _)
                    |(w1 & fileName & r & rows & pred & _ & _ & -> & Hs & _)].
  - split; [exists (S (length good)); split; [lia | assumption]|].
    split.
    + intros i c Hi Hc.
      destruct (thrown_is_last _ _ _ _ _ Hgood Hi Hc) as [-> _].
      rewrite length_app. cbn. lia.
    + rewrite thrown_trace_not_returned. discriminate.
  - split; [exists 6%nat; split; [lia | reflexivity]|].
    split.
    + intros i c Hi Hc.
      do 6 (destruct i as [|i]; [injection Hi as <-; discriminate Hc|]).
      discriminate Hi.
    + intros _. rewrite Hs. repeat split.
      do 2 eexists. repeat split.
Qed.

(** C5, as the code has it.  With a user and an artifact, [uploading] is false after
    [handleProcess] whether it failed or not; and when a step threw,
    the session is otherwise what it was (artifact, mode,
    [uploadComplete], [recordingId]), no timer was set, no navigation
    was requested, the thrown value was logged, and one alert was
    raised: the message of the thrown [Error] after the fixed prefix,
    or the generic text for a thrown value that is not an [Error]. *)
Theorem handleProcess_failure (u : User) (rt : Rt) :
  hasArtifact (session rt) ->
  let rt' := fst (handleProcess api (Some u) rt) in
  uploading (session rt') = false /\
  (forall q e,
     In (q, Threw e) (newCalls rt rt') ->
     videoBlob (session rt') = videoBlob (session rt) /\
     videoFile (session rt') = videoFile (session rt) /\
     mode (session rt') = mode (session rt) /\
     uploadComplete (session rt') = uploadComplete (session rt) /\
     recordingId (session rt') = recordingId (session rt) /\
     timers rt' = timers rt /\
     navigations rt' = navigations rt /\
     console rt' = console rt ++ [e] /\
     alerts rt' =
       alerts rt ++
       [("Failed to process video: " ++
         match e with
         | ErrorObject message => message
         | NotAnError _ => "Unknown error"
         end)%string]).
Proof.
  intros Hart rt'.
  destruct (handleProcess_outcome u rt Hart)
    as (rt1 & tr & Hrun & Hcalls & Hnav & Hcase).
  subst rt'. rewrite Hrun. cbn [fst].
  rewrite (newCalls_app _ _ _ Hcalls).
  destruct Hcase as [(good & q0 & e0 & -> & Hgood & _ & _ & Hs & Ht & Hc & Ha)
                    |(w1 & fileName & r & rows & pred & _ & _ & -> & Hs & _)].
  - split; [now rewrite Hs|].
    intros q e Hin. apply in_app_or in Hin.
    destruct Hin as [Hin | [Hin | []]];
      [now apply allReturned_In in Hin|].
    injection Hin as -> ->. rewrite Hs.
    repeat split; assumption.
  - split; [now rewrite Hs|].
    intros q e Hin. exfalso.
    repeat (destruct Hin as [Hin|Hin]; [discriminate Hin|]). exact Hin.
Qed.


(** Removing the two properties yields the stripped object, and the
    stripped object is unique. *)
Lemma withoutIdCreatedAt_strippedOf (o : gmap string Value) :
  strippedOf o (withoutIdCreatedAt o).
Proof.
  unfold strippedOf, withoutIdCreatedAt. split; [|split].
  - rewrite lookup_delete_ne by discriminate. apply lookup_delete_eq.
  - apply lookup_delete_eq.
  - intros k H1 H2. now rewrite !lookup_delete_ne by congruence.
Qed.

Lemma strippedOf_unique (o saved : gmap string Value) :
  strippedOf o saved -> saved = withoutIdCreatedAt o.
Proof.
  intros (Hid & Hca & Hrest). apply map_eq. intros k.
  destruct (withoutIdCreatedAt_strippedOf o) as (Hid' & Hca' & Hrest').
  destruct (decide (k = "id"%string)) as [->|H1]; [congruence|].
  destruct (decide (k = "created_at"%string)) as [->|H2]; [congruence|].
  now rewrite Hrest, Hrest'.
Qed.

(** C8.  In a run where every call returned, [saveHeartRateData] is
    called with, one for one and in order, the rows that
    [simulateHeartRateData] returned without [id] and [created_at] and
    with every other property unchanged, and then [saveRiskPrediction]
    with the object [simulateRiskPrediction] returned, stripped likewise;
    these are the third to sixth calls of the log. *)
Theorem persisted_rows_stripped (u : User) (rt : Rt) :
  hasArtifact (session rt) ->
  let rt' := fst (handleProcess api (Some u) rt) in
  allReturned (newCalls rt rt') = true ->
  exists w2 w3 w4 w5 rid fileName rows pred rowsSaved predSaved,
    simulateHeartRateData api rid 60 fileName w2 = (w3, inr rows) /\
    simulateRiskPrediction api rid rows fileName w3 = (w4, inr pred) /\
    saveHeartRateData api rowsSaved w4 = (w5, inr tt) /\
    saveRiskPrediction api predSaved w5 = (world rt', inr tt) /\
    newCalls rt rt' !! 2%nat =
      Some (SimulateHeartRateData rid 60 fileName, ReturnedRows rows) /\
    newCalls rt rt' !! 3%nat =
      Some (SimulateRiskPrediction rid rows fileName, ReturnedObject pred) /\
    newCalls rt rt' !! 4%nat = Some (SaveHeartRateData rowsSaved, ReturnedVoid) /\
    newCalls rt rt' !! 5%nat = Some (SaveRiskPrediction predSaved, ReturnedVoid) /\
    Forall2 strippedOf rows rowsSaved /\
    strippedOf pred predSaved.
Proof.
  intros Hart rt' Hok. subst rt'.
  destruct (handleProcess_success u rt Hart Hok)
    as (w1 & w2 & w3 & w4 & w5 & w6 & fileName & r & rows & pred
        & _ & _ & _ & E3 & E4 & E5 & E6 & Hw & Htrace).
  exists w2, w3, w4, w5, (recording_id r), fileName, rows, pred,
    (List.map withoutIdCreatedAt rows), (withoutIdCreatedAt pred).
  rewrite Hw, Htrace.
  split; [exact E3|]. split; [exact E4|]. split; [exact E5|]. split; [exact E6|].
  do 4 (split; [reflexivity|]). split.
  - apply Forall2_fmap_r, Forall_Forall2_diag, Forall_forall.
    intros o _. apply withoutIdCreatedAt_strippedOf.
  - apply withoutIdCreatedAt_strippedOf.
Qed.

(** C10.  Without a signed-in user [handleProcess] returns at once:
    the runtime (session, world, calls, alerts, timers, navigations) is
    what it was. *)
Theorem handleProcess_no_user (rt : Rt) :
  handleProcess api None rt = (rt, inr tt).
Proof. reflexivity. Qed.

(** While [uploading] is true the four buttons that run [handleProcess]
    or [handleReset] are disabled, so a click on any of them changes
    nothing and calls nothing; and what [handleProcess] does, once it
    runs, does not depend on the flag. *)
Lemma click_while_uploading (user : option User) (b : Button) (rt : Rt) :
  uploading (session rt) = true ->
  In b [RetakeVideo; AnalyzeRecording; ChooseDifferentFile; AnalyzeFile] ->
  click api user b rt = (rt, inr tt) /\
  (forall u flag,
     hasArtifact (session rt) ->
     handleProcess api (Some u) (withSession (setUploading flag (session rt)) rt)
     = handleProcess api (Some u) rt).
Proof.
  intros Hup Hb. split.
  - unfold click.
    replace (disabled (session rt) b) with true.
    + now rewrite andb_false_r.
    + cbn in Hb. destruct Hb as [<- | [<- | [<- | [<- | []]]]];
        symmetry; exact Hup.
  - intros u flag Hart. unfold handleProcess. cbn [session withSession].
    change (videoBlob (setUploading flag (session rt)))
      with (videoBlob (session rt)).
    change (videoFile (setUploading flag (session rt)))
      with (videoFile (session rt)).
    rewrite (artifact_guard _ Hart). reflexivity.
Qed.

(** The two buttons that run [handleReset] can be clicked only while the
    page is neither processing nor complete. *)
Lemma reset_button_enabled (b : Button) (s : Session) :
  In b [RetakeVideo; ChooseDifferentFile] ->
  rendered s b && negb (disabled s b) = true ->
  uploading s = false /\ uploadComplete s = false.
Proof.
  intros Hb H. apply andb_true_iff in H. destruct H as [Hr Hd].
  cbn in Hb. destruct Hb as [<- | [<- | []]]; cbn in Hr, Hd;
    apply andb_true_iff in Hr; destruct Hr as [_ Hr];
    apply negb_true_iff in Hr, Hd; auto.
Qed.

(** [handleReset] sets the mode to select, clears both artifacts and
    [uploadComplete], and leaves [uploading] and [recordingId] as they
    were. *)
Lemma handleReset_effect (rt : Rt) :
  handleReset rt =
    (withSession
       {| mode := select; videoBlob := None; videoFile := None;
          uploading := uploading (session rt); uploadComplete := false;
          recordingId := recordingId (session rt) |} rt,
     inr tt) /\
  (session (fst (handleReset rt)) = initialSession <->
   uploading (session rt) = false /\ recordingId (session rt) = None).
Proof.
  split; [reflexivity|].
  change (session (fst (handleReset rt)))
    with {| mode := select; videoBlob := None; videoFile := None;
            uploading := uploading (session rt); uploadComplete := false;
            recordingId := recordingId (session rt) |}.
  unfold initialSession. split.
  - intros [= H1 H2]. split; assumption.
  - intros [H1 H2]. rewrite H1, H2. reflexivity.
Qed.

(** The page registers no cleanup: unmounting runs nothing. *)
Lemma unmount_runs_nothing (rt : Rt) : unmount rt = (rt, inr tt).
Proof. reflexivity. Qed.

(** C9, as the code has it.  In a run where every call returned, one
    timer is added: 2000 ms, calling [onNavigate] with analysis and the
    new recording id; nothing is requested before it fires.  Unmounting
    the page leaves the timer in place: with no other timer pending,
    the navigation is requested once 2000 ms or more have passed, also
    after an unmount, and not before. *)
Theorem navigation_timer (u : User) (rt : Rt) :
  hasArtifact (session rt) ->
  let rt' := fst (handleProcess api (Some u) rt) in
  allReturned (newCalls rt rt') = true ->
  exists rid,
    recordingId (session rt') = Some rid /\
    timers rt' = timers rt ++ [mkTimer 2000 (CallOnNavigate analysis (Some rid))] /\
    navigations rt' = navigations rt /\
    timers (fst (unmount rt')) = timers rt' /\
    (timers rt = [] ->
     forall ms,
       navigations (fst (elapse ms (fst (unmount rt')))) =
         navigations rt ++
         (if 2000 <=? ms then [(analysis, Some rid)] else [])).
Proof.
  intros Hart rt'.
  destruct (handleProcess_outcome u rt Hart)
    as (rt1 & tr & Hrun & Hcalls & Hnav & Hcase).
  subst rt'. rewrite Hrun. cbn [fst].
  rewrite (newCalls_app _ _ _ Hcalls).
  destruct Hcase as [(good & q0 & e0 & -> & _)
                    |(w1 & fileName & r & rows & pred & _ & _ & -> & Hs & Ht & _)].
  - rewrite thrown_trace_not_returned. discriminate.
  - intros _. exists (recording_id r).
    split; [now rewrite Hs|]. split; [assumption|]. split; [assumption|].
    split; [reflexivity|].
    intros Hnone ms. rewrite unmount_runs_nothing. cbn [fst].
    unfold elapse. rewrite Ht, Hnone. cbn. unfold isDue. cbn.
    destruct (2000 <=? ms); cbn; rewrite Hnav; [reflexivity|].
    now rewrite app_nil_r.
Qed.

End Facts.

Import Demo.

Lemma reviewingFile_hasArtifact (w : World) :
  hasArtifact (session (start w reviewingFile)).
Proof. right. eexists. reflexivity. Defined.

Lemma reviewingBlob_hasArtifact (w : World) :
  hasArtifact (session (start w reviewingBlob)).
Proof. left. eexists. reflexivity. Defined.

Example numberToString_clock :
  numberToString 1700000000000 = "1700000000000"%string.
Proof. reflexivity. Qed.

(** A recorded blob has no name: the file name is made from the clock. *)
Example recorded_blob_file_name :
  List.map fst
    (take 2 (calls (fst (handleProcess api (Some alice) (start calm reviewingBlob)))))
  = [EnsureUserProfile "user-1" "alice@example.org";
     CreateRecording "user-1" "recording-1700000000000.webm" 60].
Proof. reflexivity. Qed.

(** The scenario of the spec: "create recording" throws. *)
Example scenario_create_recording_throws :
  let rt' := fst (handleProcess api (Some alice)
                    (start (broken StepCreateRecording "quota exceeded")
                           reviewingFile)) in
  session rt' = reviewingFile /\
  List.map (fun c => stepOf (fst c)) (calls rt')
    = [StepEnsureProfile; StepCreateRecording] /\
  alerts rt' = ["Failed to process video: quota exceeded"%string].
Proof. repeat split. Qed.

Lemma handleProcess_pipeline_witness :
  let rt' := fst (handleProcess api (Some alice) (start calm reviewingFile)) in
  List.map (fun c => stepOf (fst c)) (calls rt') = pipelineOrder /\
  uploadComplete (session rt') = true /\
  recordingId (session rt') = Some "rec-1"%string.
Proof.
  destruct (handleProcess_pipeline api alice (start calm reviewingFile)
              (reviewingFile_hasArtifact calm))
    as (_ & _ & _ & _ & _ & Hdone).
  destruct (Hdone eq_refl) as (Hsteps & Hcomplete & _).
  split; [exact Hsteps|]. split; [exact Hcomplete | reflexivity].
Defined.

Lemma handleProcess_failure_witness :
  let rt' := fst (handleProcess api (Some alice)
                    (start (broken StepCreateRecording "boom") reviewingBlob)) in
  uploading (session rt') = false /\
  videoBlob (session rt') = Some capture /\
  uploadComplete (session rt') = false /\
  timers rt' = [] /\
  alerts rt' = ["Failed to process video: boom"%string].
Proof.
  destruct (handleProcess_failure api alice
              (start (broken StepCreateRecording "boom") reviewingBlob)
              (reviewingBlob_hasArtifact _))
    as (Hflag & Hfail).
  destruct (Hfail (CreateRecording "user-1" "recording-1700000000000.webm" 60)
                  (ErrorObject "boom"))
    as (Hblob & _ & _ & Hcomplete & _ & Htimers & _ & _ & Halerts).
  - right. left. reflexivity.
  - repeat split; assumption.
Defined.


Lemma persisted_rows_stripped_witness :
  exists w5 predSaved,
    saveRiskPrediction api predSaved w5
      = (world (fst (handleProcess api (Some alice) (start calm reviewingFile))),
         inr tt) /\
    predSaved !! "id"%string = None /\
    predSaved !! "created_at"%string = None /\
    predSaved !! "risk_level"%string = Some (JStr "low").
Proof.
  destruct (persisted_rows_stripped api alice (start calm reviewingFile)
              (reviewingFile_hasArtifact calm) eq_refl)
    as (w2 & w3 & w4 & w5 & rid & fileName & rows & pred & rowsSaved & predSaved
        & _ & _ & _ & Hsave & _ & Hpred & _ & _ & _ & Hid & Hca & Hrest).
  exists w5, predSaved.
  split; [exact Hsave|]. split; [exact Hid|]. split; [exact Hca|].
  rewrite Hrest by discriminate.
  assert (newCalls (start calm reviewingFile)
            (fst (handleProcess api (Some alice) (start calm reviewingFile)))
            !! 3%nat
          = Some (SimulateRiskPrediction "rec-1"
                    [row "rec-1" 0 72; row "rec-1" 1000 75] "clip.mp4",
                  ReturnedObject (prediction "rec-1"))) as Hrun
    by reflexivity.
  rewrite Hrun in Hpred. injection Hpred as _ _ _ <-. reflexivity.
Defined.

(** C5 as stated fails: [createRecording] throws a plain object that
    carries the text quota exceeded; the alert shows the generic text,
    not that one. *)
Lemma plain_throw_not_shown :
  let rt := start (brokenPlain StepCreateRecording "quota exceeded") reviewingFile in
  let rt' := fst (handleProcess api (Some alice) rt) in
  In (CreateRecording "user-1" "clip.mp4" 60,
      Threw (NotAnError (Some "quota exceeded"%string)))
     (newCalls rt rt') /\
  alerts rt' = ["Failed to process video: Unknown error"%string] /\
  alerts rt' <> ["Failed to process video: quota exceeded"%string].
Proof.
  split; [right; left; reflexivity|]. split; [reflexivity | discriminate].
Qed.

(** C9 as stated fails: the page is unmounted right after a completed
    run, and the navigation is still requested when the 2000 ms have
    passed. *)
Lemma navigation_fires_after_unmount :
  let rt1 := fst (handleProcess api (Some alice) (start calm reviewingFile)) in
  let rt2 := fst (unmount rt1) in
  navigations rt2 = [] /\
  navigations (fst (elapse 1999 rt2)) = [] /\
  navigations (fst (elapse 2000 rt2)) = [(analysis, Some "rec-1"%string)].
Proof. repeat split. Qed.

Lemma navigation_timer_witness :
  let rt' := fst (handleProcess api (Some alice) (start calm reviewingFile)) in
  exists rid,
    timers rt' = [mkTimer 2000 (CallOnNavigate analysis (Some rid))].
Proof.
  destruct (navigation_timer api alice (start calm reviewingFile)
              (reviewingFile_hasArtifact calm) eq_refl)
    as (rid & _ & Htimers & _).
  exists rid. exact Htimers.
Defined.

End RecordingPageFacts.

(** ** VideoUpload: the rest of the widget *)

Module WidgetFacts.

Import VideoUpload.

Lemma canonicalize_dot (c : ascii) :
  Ascii.eqb (Regex.canonicalize c) "."%char = Ascii.eqb c "."%char.
Proof. destruct c as [[] [] [] [] [] [] [] []]; reflexivity. Qed.

(** Two strings that fold to the same string are searched alike. *)
Lemma search_folded alts : forall a b,
  Regex.upper a = Regex.upper b -> Regex.search alts a = Regex.search alts b.
Proof.
  induction a as [|c a IH]; intros [|c' b] H; simpl in H; try discriminate;
    [reflexivity|].
  injection H as Hc Hab. cbn [Regex.search]. rewrite (IH b Hab). f_equal.
  unfold Regex.dot_alts_end.
  rewrite <- (canonicalize_dot c), <- (canonicalize_dot c'), Hc. f_equal.
  apply eq_true_iff_eq. rewrite !RegexFacts.alternative_matches, Hab. tauto.
Qed.

Lemma accepted_iff (file : File) (st : State) :
  fst (validateFile file st) = true <->
  (In (type file) validTypes \/ matchesExtension (name file) = true) /\
  size file <= maxSize.
Proof.
  unfold validateFile.
  pose proof (VideoUploadFacts.includes_In validTypes (type file)) as HI.
  destruct (includes validTypes (type file));
    destruct (matchesExtension (name file)); cbn [negb andb];
    destruct (maxSize <? size file) eqn:Hs; cbn [fst];
    try apply Z.ltb_lt in Hs; try apply Z.ltb_ge in Hs;
    (split; [try discriminate; intros _ | try (intros [_ H]; lia)]);
    try (split; [tauto | assumption]);
    try reflexivity.
  all: intros [[H|H] _]; [apply HI in H|]; discriminate.
Qed.

(** X1.  [validateFile] returns true exactly for the files whose MIME type
    is accepted or whose name matches the extension pattern, and whose
    size does not exceed [maxSize]; and the error is cleared exactly when
    it returns true. *)
Theorem validateFile_decision (file : File) (st : State) :
  (fst (validateFile file st) = true <->
   (In (type file) validTypes \/ matchesExtension (name file) = true) /\
   size file <= maxSize) /\
  (error (snd (validateFile file st)) = None <-> fst (validateFile file st) = true).
Proof.
  split; [apply accepted_iff|]. unfold validateFile.
  destruct (negb (includes validTypes (type file)) &&
            negb (matchesExtension (name file)));
    [|destruct (maxSize <? size file)]; cbn; split; (discriminate || reflexivity).
Qed.

(** X2.  A file whose MIME type is not accepted and whose name does not
    match the extension pattern is rejected with the format message,
    whatever its size. *)
Theorem validateFile_rejects_format (file : File) (st : State) :
  ~ In (type file) validTypes ->
  matchesExtension (name file) = false ->
  validateFile file st = (false, setError (Some formatMessage) st).
Proof.
  intros Ht Hn. unfold validateFile. rewrite Hn.
  destruct (includes validTypes (type file)) eqn:E; [|reflexivity].
  apply VideoUploadFacts.includes_In in E. contradiction.
Qed.

Lemma validateFile_rejects_format_witness :
  validateFile (mkFile "notes.txt" 1024 "text/plain") Demo.emptyWidget
  = (false, setError (Some formatMessage) Demo.emptyWidget).
Proof.
  apply validateFile_rejects_format; [|reflexivity].
  cbn. intros [H | [H | [H | [H | []]]]]; discriminate.
Defined.

(** X3.  The letter case of the file name does not matter: two files of
    the same type and size whose names are equal up to ASCII letter case
    are validated alike. *)
Theorem validateFile_ignores_case (f1 f2 : File) (st : State) :
  type f1 = type f2 ->
  size f1 = size f2 ->
  Regex.upper (name f1) = Regex.upper (name f2) ->
  validateFile f1 st = validateFile f2 st.
Proof.
  intros Ht Hs Hn. unfold validateFile, matchesExtension.
  now rewrite Ht, Hs, (search_folded _ _ _ Hn).
Qed.

Lemma validateFile_ignores_case_witness :
  validateFile (mkFile "Clip.MP4" 10 "") Demo.emptyWidget
  = validateFile (mkFile "cLIP.mp4" 10 "") Demo.emptyWidget.
Proof. apply validateFile_ignores_case; reflexivity. Defined.


(** X4.  The verdict and the error left by [validateFile] depend on the
    file only, not on the state before (a stale error never survives), and
    validating the same file again changes nothing. *)
Theorem validateFile_idempotent (file : File) (st st' : State) :
  fst (validateFile file st) = fst (validateFile file st') /\
  error (snd (validateFile file st)) = error (snd (validateFile file st')) /\
  validateFile file (snd (validateFile file st)) = validateFile file st.
Proof.
  unfold validateFile.
  destruct (negb (includes validTypes (type file)) &&
            negb (matchesExtension (name file)));
    [|destruct (maxSize <? size file)]; repeat split.
Qed.

Lemma handleFile_effect (file : File) (st : State) :
  snd (handleFile file st)
    = (if fst (validateFile file st) then Some file else None) /\
  selectedFile (fst (handleFile file st))
    = (if fst (validateFile file st) then Some file else selectedFile st) /\
  dragActive (fst (handleFile file st)) = dragActive st /\
  error (fst (handleFile file st)) = error (snd (validateFile file st)).
Proof.
  unfold handleFile, validateFile.
  destruct (negb (includes validTypes (type file)) &&
            negb (matchesExtension (name file)));
    [|destruct (maxSize <? size file)]; repeat split.
Qed.

(** X5.  [handleFile] hands the file to [onFileSelect] and makes it the
    selected file exactly when [validateFile] accepts it; a rejected file
    leaves the selected file as it was, and only the error changes. *)
Theorem handleFile_outcome (file : File) (st : State) :
  (snd (handleFile file st) = Some file <-> fst (validateFile file st) = true) /\
  (snd (handleFile file st) = None <-> fst (validateFile file st) = false) /\
  selectedFile (fst (handleFile file st))
    = (if fst (validateFile file st) then Some file else selectedFile st) /\
  dragActive (fst (handleFile file st)) = dragActive st /\
  error (fst (handleFile file st)) = error (snd (validateFile file st)).
Proof.
  destruct (handleFile_effect file st) as (Hout & Hsel & Hdrag & Herr).
  rewrite Hout. repeat split; try assumption;
    destruct (fst (validateFile file st)); congruence.
Qed.

(** X6.  Of the files dropped or chosen only the first counts; a drop
    always switches the highlight off; no file means nothing is selected,
    nothing is emitted and the error is left alone. *)
Theorem first_file_only (f : File) (rest : list File) (st : State) :
  handleDrop (Some (f :: rest)) st = handleDrop (Some [f]) st /\
  handleChange (Some (f :: rest)) st = handleChange (Some [f]) st /\
  (forall files, dragActive (fst (handleDrop files st)) = false) /\
  handleDrop None st = (setDragActive false st, None) /\
  handleDrop (Some []) st = (setDragActive false st, None) /\
  handleChange None st = (st, None) /\
  handleChange (Some []) st = (st, None).
Proof.
  repeat split. intros [[|g files]|]; try reflexivity.
  unfold handleDrop. destruct (handleFile_effect g (setDragActive false st))
    as (_ & _ & Hd & _). exact Hd.
Qed.

(** X7.  Whatever the widget hands to its parent, from a drop or from the
    file dialog, is the first of the files it was given and passes the
    format test and the size test. *)
Theorem emitted_file_is_valid (files : option (list File)) (st : State) (f : File) :
  snd (handleDrop files st) = Some f \/ snd (handleChange files st) = Some f ->
  (exists rest, files = Some (f :: rest)) /\
  (In (type f) validTypes \/ matchesExtension (name f) = true) /\
  size f <= maxSize.
Proof.
  assert (forall g st0, snd (handleFile g st0) = Some f ->
                        g = f /\ fst (validateFile f st0) = true) as Hfile.
  { intros g st0 H. destruct (handleFile_effect g st0) as (Hout & _).
    rewrite Hout in H. destruct (fst (validateFile g st0)) eqn:E; [|discriminate].
    injection H as ->. auto. }
  intros [H|H]; destruct files as [[|g rest]|]; try discriminate H;
    cbn in H; apply Hfile in H; destruct H as [-> Hok];
    apply accepted_iff in Hok; (split; [eexists; reflexivity | exact Hok]).
Qed.

Lemma emitted_file_is_valid_witness :
  size Demo.clip <= maxSize.
Proof.
  destruct (emitted_file_is_valid (Some [Demo.clip; Demo.bigNotes])
              Demo.emptyWidget Demo.clip) as (_ & _ & H).
  - left. reflexivity.
  - exact H.
Defined.

Lemma handleDrag_keeps (t : string) (st : State) :
  error (handleDrag t st) = error st /\
  selectedFile (handleDrag t st) = selectedFile st.
Proof.
  unfold handleDrag.
  destruct (String.eqb t "dragenter" || String.eqb t "dragover");
    [|destruct (String.eqb t "dragleave")]; split; reflexivity.
Qed.

Lemma handleDrag_other (t : string) (st : State) :
  ~ In t ["dragenter"; "dragover"; "dragleave"] -> handleDrag t st = st.
Proof.
  intros H. unfold handleDrag.
  destruct (String.eqb_spec t "dragenter") as [->|_]; [exfalso; apply H; cbn; auto|].
  destruct (String.eqb_spec t "dragover") as [->|_]; [exfalso; apply H; cbn; auto|].
  destruct (String.eqb_spec t "dragleave") as [->|_]; [exfalso; apply H; cbn; auto|].
  reflexivity.
Qed.

(** X8.  Drag events change nothing but the highlight: after any
    sequence of them the error and the selected file are what they were,
    and the highlight is on exactly when the last dragenter, dragover or
    dragleave of the sequence was not a dragleave; events of another type
    are ignored. *)
Theorem drag_events (evs : list string) (st : State) :
  let st' := fold_left (fun s t => handleDrag t s) evs st in
  error st' = error st /\
  selectedFile st' = selectedFile st /\
  (forall pre t post,
     evs = (pre ++ t :: post)%list ->
     In t ["dragenter"; "dragover"; "dragleave"] ->
     Forall (fun x => ~ In x ["dragenter"; "dragover"; "dragleave"]) post ->
     dragActive st' = negb (String.eqb t "dragleave")).
Proof.
  cbn zeta. split; [|split].
  - revert st. induction evs as [|t evs IH]; intros st; [reflexivity|].
    cbn [fold_left]. rewrite IH. apply handleDrag_keeps.
  - revert st. induction evs as [|t evs IH]; intros st; [reflexivity|].
    cbn [fold_left]. rewrite IH. apply handleDrag_keeps.
  - intros pre t post -> Ht Hpost. rewrite fold_left_app. cbn [fold_left].
    set (st1 := fold_left _ pre st). clearbody st1.
    assert (fold_left (fun s x => handleDrag x s) post (handleDrag t st1)
            = handleDrag t st1) as ->.
    { generalize (handleDrag t st1). induction Hpost as [|x post Hx _ IH];
        intros s; [reflexivity|].
      cbn [fold_left]. rewrite (handleDrag_other x s Hx). apply IH. }
    cbn in Ht. destruct Ht as [<- | [<- | [<- | []]]]; reflexivity.
Qed.

(** X9.  The extension test accepts exactly the names that end with a
    dot followed by mp4, webm, mov or avi in any letter case. *)
Theorem extension_test_meaning (n : string) :
  matchesExtension n = true <->
  exists stem ext, n = stem ++ "." ++ ext /\
                   In (Regex.upper ext) ["MP4"; "WEBM"; "MOV"; "AVI"].
Proof. exact (VideoUploadFacts.matchesExtension_iff n). Qed.

End WidgetFacts.

(** ** RecordingPage: the rest of the page *)

Module WorkflowFacts.

Import RecordingPage.
Local Open Scope list_scope.


Ltac next_call f :=
  match goal with
  | |- context [f ?a ?x ?w] =>
      destruct (f a x w) as [? [?|?]] eqn:?; cbn
  | |- context [f ?a ?x ?y ?w] =>
      destruct (f a x y w) as [? [?|?]] eqn:?; cbn
  | |- context [f ?a ?x ?y ?z ?w] =>
      destruct (f a x y z w) as [? [?|?]] eqn:?; cbn
  end.

Section Facts.

Context {Value World : Type}.
Variable api : Collaborators Value World.

Local Abbreviation Rt := (Runtime Value World).

Lemma no_artifact_guard (s : Session) :
  videoBlob s = None -> videoFile s = None ->
  negb (bool_decide (is_Some (videoBlob s))) &&
  negb (bool_decide (is_Some (videoFile s))) = true.
Proof. intros -> ->. reflexivity. Qed.

Lemma artifact_or_not (s : Session) :
  hasArtifact s \/ (videoBlob s = None /\ videoFile s = None).
Proof.
  unfold hasArtifact. destruct (videoBlob s), (videoFile s); eauto.
Qed.

(** Every run of [handleProcess] is a return at one of the two guards or
    a run of the pipeline. *)
Lemma handleProcess_split (user : option User) (rt : Rt) :
  handleProcess api user rt = (rt, inr tt) \/
  exists u, user = Some u /\ hasArtifact (session rt).
Proof.
  destruct user as [u|]; [|left; reflexivity].
  destruct (artifact_or_not (session rt)) as [H | [Hb Hf]]; [right; eauto|].
  left. unfold handleProcess. now rewrite (no_artifact_guard _ Hb Hf).
Qed.

(** X10.  With a signed-in user but neither a recorded blob nor a selected
    file, [handleProcess] returns at once and changes nothing. *)
Theorem handleProcess_no_artifact (user : option User) (rt : Rt) :
  videoBlob (session rt) = None ->
  videoFile (session rt) = None ->
  handleProcess api user rt = (rt, inr tt).
Proof.
  intros Hb Hf. destruct user as [u|]; [|reflexivity].
  unfold handleProcess. now rewrite (no_artifact_guard _ Hb Hf).
Qed.

Lemma handleProcess_keeps (user : option User) (rt : Rt) :
  snd (handleProcess api user rt) = inr tt /\
  mode (session (fst (handleProcess api user rt))) = mode (session rt) /\
  videoBlob (session (fst (handleProcess api user rt))) = videoBlob (session rt) /\
  videoFile (session (fst (handleProcess api user rt))) = videoFile (session rt) /\
  navigations (fst (handleProcess api user rt)) = navigations rt.
Proof.
  destruct (handleProcess_split user rt) as [-> | (u & -> & Hart)];
    [repeat split|].
  destruct (RecordingPageFacts.handleProcess_outcome api u rt Hart)
    as (rt1 & tr & -> & _ & Hnav & Hcase). cbn [fst snd].
  destruct Hcase as [(good & q & e & _ & _ & _ & _ & -> & _)
                    |(w1 & fileName & r & rows & pred & _ & _ & _ & -> & _)];
    repeat split; assumption.
Qed.

(** X11.  [handleProcess] never lets an exception escape, and on every
    path (guard, failure, success) it leaves the mode, the recorded blob,
    the selected file and the navigation requests as they were. *)
Theorem handleProcess_frame (user : option User) (rt : Rt) :
  let rt' := fst (handleProcess api user rt) in
  snd (handleProcess api user rt) = inr tt /\
  mode (session rt') = mode (session rt) /\
  videoBlob (session rt') = videoBlob (session rt) /\
  videoFile (session rt') = videoFile (session rt) /\
  navigations rt' = navigations rt.
Proof. exact (handleProcess_keeps user rt). Qed.



(** X13.  In a run where every call returned, both generators are
    called, one after the other on the world [createRecording] left, with
    the id of the recording that [createRecording] just returned, the
    file name that was given to [createRecording] and the duration 60; and
    the prediction generator receives the rows of the series generator as
    they were returned. *)
Theorem generators_arguments (u : User) (rt : Rt) :
  hasArtifact (session rt) ->
  let rt' := fst (handleProcess api (Some u) rt) in
  allReturned (newCalls rt rt') = true ->
  exists fileName w1 w2 w3 w4 r rows pred,
    createRecording api (user_id u) fileName 60 w1 = (w2, inr r) /\
    simulateHeartRateData api (recording_id r) 60 fileName w2 = (w3, inr rows) /\
    simulateRiskPrediction api (recording_id r) rows fileName w3 = (w4, inr pred) /\
    newCalls rt rt' !! 1%nat =
      Some (CreateRecording (user_id u) fileName 60, ReturnedRecording r) /\
    newCalls rt rt' !! 2%nat =
      Some (SimulateHeartRateData (recording_id r) 60 fileName, ReturnedRows rows) /\
    newCalls rt rt' !! 3%nat =
      Some (SimulateRiskPrediction (recording_id r) rows fileName,
            ReturnedObject pred).
Proof.
  intros Hart rt' Hok. subst rt'.
  destruct (RecordingPageFacts.handleProcess_success api u rt Hart Hok)
    as (w1 & w2 & w3 & w4 & w5 & w6 & fileName & r & rows & pred
        & _ & _ & E2 & E3 & E4 & _ & _ & _ & Htrace).
  exists fileName, w1, w2, w3, w4, r, rows, pred. rewrite Htrace.
  repeat split; assumption.
Qed.

(** X14.  A run of the pipeline raises one alert and logs one error when
    a call threw, and none when every call returned; and it sets
    [uploadComplete] exactly when every call returned. *)
Theorem one_alert_per_failure (u : User) (rt : Rt) :
  hasArtifact (session rt) ->
  let rt' := fst (handleProcess api (Some u) rt) in
  let ok := allReturned (newCalls rt rt') in
  length (alerts rt') = (length (alerts rt) + (if ok then 0 else 1))%nat /\
  length (console rt') = (length (console rt) + (if ok then 0 else 1))%nat /\
  uploadComplete (session rt') = (if ok then true else uploadComplete (session rt)).
Proof.
  intros Hart rt' ok. subst rt' ok.
  destruct (RecordingPageFacts.handleProcess_outcome api u rt Hart)
    as (rt1 & tr & -> & Hcalls & _ & Hcase). cbn [fst].
  rewrite (RecordingPageFacts.newCalls_app _ _ _ Hcalls).
  destruct Hcase as [(good & q0 & e0 & -> & _ & _ & _ & -> & _ & -> & ->)
                    |(w1 & fileName & r & rows & pred & _ & _ & -> & -> & _ & -> & ->)].
  - rewrite RecordingPageFacts.thrown_trace_not_returned, !length_app. cbn.
    repeat split.
  - cbn. repeat split; lia.
Qed.

(** X15.  The video itself is never read: what a run emits (API calls
    with their arguments and results, the world after, alerts, errors
    logged, timers, navigation requests) is the same for two sessions
    whose selected files, if any, have the same name, whatever the blob,
    the size and the type are. *)
Theorem video_content_unused (u : User) (rt : Rt) (s2 : Session) :
  hasArtifact (session rt) ->
  hasArtifact s2 ->
  option_map name (videoFile s2) = option_map name (videoFile (session rt)) ->
  let rtA := fst (handleProcess api (Some u) rt) in
  let rtB := fst (handleProcess api (Some u) (withSession s2 rt)) in
  calls rtB = calls rtA /\
  world rtB = world rtA /\
  alerts rtB = alerts rtA /\
  console rtB = console rtA /\
  timers rtB = timers rtA /\
  navigations rtB = navigations rtA.
Proof.
  intros Hart Hart2 Hname rtA rtB. subst rtA rtB.
  unfold handleProcess. cbn [session withSession].
  rewrite (RecordingPageFacts.artifact_guard _ Hart),
          (RecordingPageFacts.artifact_guard _ Hart2).
  unfold tryCatchFinally, processBody, processFailed, bind, invoke, set,
    setTimeout, consoleError, alert, ret.
  cbn. rewrite ?RecordingPageFacts.nominal_duration, Hname.
  next_call (@ensureUserProfile Value World); [repeat split|].
  next_call (@createRecording Value World); [repeat split|].
  next_call (@simulateHeartRateData Value World); [repeat split|].
  next_call (@simulateRiskPrediction Value World); [repeat split|].
  next_call (@saveHeartRateData Value World); [repeat split|].
  next_call (@saveRiskPrediction Value World); repeat split.
Qed.

(** X16.  After a run in which a call threw, every reset or analyze
    button that was on the page is on the page again and enabled: the
    user can retry or start over. *)
Theorem retry_after_failure (u : User) (rt : Rt) (b : Button) :
  hasArtifact (session rt) ->
  let rt' := fst (handleProcess api (Some u) rt) in
  allReturned (newCalls rt rt') = false ->
  In b fourButtons ->
  rendered (session rt) b = true ->
  rendered (session rt') b && negb (disabled (session rt') b) = true.
Proof.
  intros Hart rt'. subst rt'.
  destruct (RecordingPageFacts.handleProcess_outcome api u rt Hart)
    as (rt1 & tr & -> & Hcalls & _ & Hcase). cbn [fst].
  rewrite (RecordingPageFacts.newCalls_app _ _ _ Hcalls).
  destruct Hcase as [(good & q0 & e0 & _ & _ & _ & _ & -> & _)
                    |(w1 & fileName & r & rows & pred & _ & _ & -> & _)];
    [|discriminate].
  intros _ Hb Hr. cbn in Hb.
  destruct Hb as [<- | [<- | [<- | [<- | []]]]]; cbn in *;
    rewrite Hr; reflexivity.
Qed.

(** X17.  After a run in which every call returned, none of the four
    buttons is on the page: a click on any of them does nothing, so the
    page cannot start the pipeline again for this session. *)
Theorem complete_no_rerun (u : User) (user' : option User) (rt : Rt) (b : Button) :
  hasArtifact (session rt) ->
  let rt' := fst (handleProcess api (Some u) rt) in
  allReturned (newCalls rt rt') = true ->
  In b fourButtons ->
  click api user' b rt' = (rt', inr tt).
Proof.
  intros Hart rt'. subst rt'.
  destruct (RecordingPageFacts.handleProcess_outcome api u rt Hart)
    as (rt1 & tr & -> & Hcalls & _ & Hcase). cbn [fst].
  rewrite (RecordingPageFacts.newCalls_app _ _ _ Hcalls).
  destruct Hcase as [(good & q0 & e0 & -> & _)
                    |(w1 & fileName & r & rows & pred & _ & _ & _ & Hs & _)].
  - rewrite RecordingPageFacts.thrown_trace_not_returned. discriminate.
  - intros _ Hb. unfold click. rewrite Hs.
    replace (rendered _ b) with false; [reflexivity|].
    cbn in Hb. destruct Hb as [<- | [<- | [<- | [<- | []]]]]; cbn;
      now rewrite andb_false_r.
Qed.


(** *** Sequences of events *)

Variable user : option User.

Lemma runCallbacks_effect (cbs : list Callback) : forall rt : Rt,
  runCallbacks cbs rt =
    (withNavigations
       (navigations rt ++
        List.map (fun cb => match cb with CallOnNavigate p rid => (p, rid) end) cbs)
       rt,
     inr tt).
Proof.
  induction cbs as [|[p rid] cbs IH]; intros [w s c k a t n].
  - unfold withNavigations. cbn. now rewrite app_nil_r.
  - cbn [runCallbacks]. unfold bind. cbn [runCallback onNavigate].
    rewrite IH. unfold withNavigations. cbn. now rewrite <- app_assoc.
Qed.

Lemma elapse_effect (ms : Z) (rt : Rt) :
  elapse ms rt =
    (withNavigations
       (navigations rt ++
        List.map (fun cb => match cb with CallOnNavigate p rid => (p, rid) end)
                 (List.map callback (List.filter (isDue ms) (timers rt))))
       (withTimers
          (List.map (fun t => mkTimer (delay t - ms) (callback t))
                    (List.filter (fun t => negb (isDue ms t)) (timers rt)))
          rt),
     inr tt).
Proof. unfold elapse. now rewrite runCallbacks_effect. Qed.

Lemma handleProcess_returns (rt : Rt) :
  snd (handleProcess api user rt) = inr tt.
Proof.
  destruct (handleProcess_split user rt) as [-> | (u & -> & Hart)]; [reflexivity|].
  destruct (RecordingPageFacts.handleProcess_outcome api u rt Hart)
    as (rt1 & tr & -> & _). reflexivity.
Qed.


Lemma dispatch_returns (ev : Event) (rt : Rt) :
  snd (dispatch api user ev rt) = inr tt.
Proof.
  destruct ev as [b | blob | w files | w files | ms]; cbn [dispatch].
  - unfold click. destruct (rendered (session rt) b && negb (disabled (session rt) b));
      [|reflexivity].
    destruct b; cbn [onClick]; try reflexivity; apply handleProcess_returns.
  - reflexivity.
  - destruct (uploaderMounted (session rt)); [|reflexivity].
    destruct (snd (VideoUpload.handleChange files w)); reflexivity.
  - destruct (uploaderMounted (session rt)); [|reflexivity].
    destruct (snd (VideoUpload.handleDrop files w)); reflexivity.
  - now rewrite elapse_effect.
Qed.














(** X23.  The mode changes in two ways only: from select to record or
    upload by the button of that name, and back to select by one of the
    two reset buttons, which also discards the blob and the file.  No
    other event changes the mode. *)
Theorem mode_transitions (ev : Event) (rt : Rt) :
  let s := session rt in
  let s' := session (fst (dispatch api user ev rt)) in
  mode s' = mode s \/
  (mode s = select /\
   ((ev = Clicked RecordVideo /\ mode s' = record) \/
    (ev = Clicked UploadVideo /\ mode s' = upload))) \/
  (mode s' = select /\
   (ev = Clicked RetakeVideo \/ ev = Clicked ChooseDifferentFile) /\
   videoBlob s' = None /\ videoFile s' = None).
Proof.
  cbn zeta.
  destruct ev as [b | blob | w files | w files | ms]; cbn [dispatch].
  - unfold click.
    destruct (rendered (session rt) b && negb (disabled (session rt) b)) eqn:E;
      [|left; reflexivity].
    destruct b; cbn [onClick].
    + left. reflexivity.
    + right. left. cbn in E. rewrite andb_true_r in E.
      destruct (mode (session rt)); try discriminate. auto.
    + right. left. cbn in E. rewrite andb_true_r in E.
      destruct (mode (session rt)); try discriminate. auto.
    + right. right. cbn. auto.
    + left. apply handleProcess_keeps.
    + right. right. cbn. auto.
    + left. apply handleProcess_keeps.
  - left. reflexivity.
  - left. destruct (uploaderMounted (session rt)); [|reflexivity].
    destruct (snd (VideoUpload.handleChange files w)); reflexivity.
  - left. destruct (uploaderMounted (session rt)); [|reflexivity].
    destruct (snd (VideoUpload.handleDrop files w)); reflexivity.
  - left. now rewrite elapse_effect.
Qed.

End Facts.

Import Demo.

Example upload_and_analyze :
  let rt := fst (run api (Some alice) uploadAndAnalyze (mounted calm)) in
  session rt =
    {| mode := upload; videoBlob := None; videoFile := Some clip;
       uploading := false; uploadComplete := true;
       recordingId := Some "rec-1"%string |} /\
  navigations rt = [(analysis, Some "rec-1"%string)] /\
  timers rt = [].
Proof. repeat split. Qed.

Lemma handleProcess_no_artifact_witness :
  handleProcess api (Some alice) (mounted calm) = (mounted calm, inr tt).
Proof. apply handleProcess_no_artifact; reflexivity. Defined.


Lemma generators_arguments_witness :
  exists fileName w2 w3 (r : VideoRecording Json) rows,
    simulateHeartRateData api (recording_id r) 60 fileName w2 = (w3, inr rows) /\
    newCalls (start calm reviewingFile)
             (fst (handleProcess api (Some alice) (start calm reviewingFile)))
      !! 2%nat
    = Some (SimulateHeartRateData (recording_id r) 60 fileName, ReturnedRows rows).
Proof.
  destruct (generators_arguments api alice (start calm reviewingFile)
              (RecordingPageFacts.reviewingFile_hasArtifact calm) eq_refl)
    as (fileName & w1 & w2 & w3 & w4 & r & rows & pred & _ & Hreal & _ & _ & H & _).
  exists fileName, w2, w3, r, rows. split; [exact Hreal | exact H].
Defined.

Lemma one_alert_per_failure_witness :
  length (alerts (fst (handleProcess api (Some alice)
                         (start (broken StepPersistSeries "offline") reviewingFile))))
  = 1%nat.
Proof.
  destruct (one_alert_per_failure api alice
              (start (broken StepPersistSeries "offline") reviewingFile)
              (RecordingPageFacts.reviewingFile_hasArtifact _))
    as (H & _).
  exact H.
Defined.

Lemma video_content_unused_witness :
  calls (fst (handleProcess api (Some alice)
                (withSession (setVideoFile (Some (mkFile "clip.mp4" 7 "video/webm"))
                                reviewingFile)
                             (start calm reviewingFile))))
  = calls (fst (handleProcess api (Some alice) (start calm reviewingFile))).
Proof.
  destruct (video_content_unused api alice (start calm reviewingFile)
              (setVideoFile (Some (mkFile "clip.mp4" 7 "video/webm")) reviewingFile)
              (RecordingPageFacts.reviewingFile_hasArtifact calm))
    as (H & _).
  - right. eexists. reflexivity.
  - reflexivity.
  - exact H.
Defined.

Lemma retry_after_failure_witness :
  let rt' := fst (handleProcess api (Some alice)
                    (start (broken StepCreateRecording "boom") reviewingFile)) in
  rendered (session rt') AnalyzeFile && negb (disabled (session rt') AnalyzeFile)
  = true.
Proof.
  apply (retry_after_failure api alice
           (start (broken StepCreateRecording "boom") reviewingFile) AnalyzeFile
           (RecordingPageFacts.reviewingFile_hasArtifact _)).
  - reflexivity.
  - cbn. auto.
  - reflexivity.
Defined.

Lemma complete_no_rerun_witness :
  let rt' := fst (handleProcess api (Some alice) (start calm reviewingFile)) in
  click api (Some alice) AnalyzeFile rt' = (rt', inr tt).
Proof.
  apply (complete_no_rerun api alice (Some alice) (start calm reviewingFile)
           AnalyzeFile (RecordingPageFacts.reviewingFile_hasArtifact calm) eq_refl).
  cbn. auto.
Defined.




End WorkflowFacts.

(** ** RecordingPage: runs of the pipeline interleaved with events *)

Module AsyncFacts.

Import RecordingPage.
Local Open Scope list_scope.

Section Facts.

Context {Value World : Type}.
Variable api : Collaborators Value World.
Variable user : option User.

Local Abbreviation Rt := (Runtime Value World).
Local Abbreviation Sys := (System (Value:=Value) (World:=World)).

(** What the first segment does to the session. *)
Lemma begin_session (rt : Rt) :
  match snd (beginProcess api user rt) with
  | Some _ => session (fst (beginProcess api user rt)) = setUploading true (session rt)
  | None => fst (beginProcess api user rt) = rt
  end.
Proof.
  unfold beginProcess. destruct user as [u|]; [|reflexivity].
  destruct (negb (bool_decide (is_Some (videoBlob (session rt)))) &&
            negb (bool_decide (is_Some (videoFile (session rt)))));
    [reflexivity|].
  unfold invoke, set. cbn.
  destruct (ensureUserProfile api _ _ _) as [w1 r]. reflexivity.
Qed.

(** What a later segment does to the session: nothing while the run goes
    on; at its end [uploading] is cleared, after [recordingId] and
    [uploadComplete] were set if the last call returned. *)
Lemma resume_session (k : Suspended) (rt : Rt) :
  match snd (resumeProcess api k rt) with
  | Some _ => session (fst (resumeProcess api k rt)) = session rt
  | None =>
      session (fst (resumeProcess api k rt)) = setUploading false (session rt) \/
      exists rid,
        session (fst (resumeProcess api k rt)) =
          setUploading false
            (setUploadComplete true (setRecordingId (Some rid) (session rt)))
  end.
Proof.
  destruct k as [u vf [e|[]] | fileName d [e|r] | r risk [e|[]] | r [e|[]]];
    cbn [resumeProcess]; try (left; reflexivity).
  - unfold invoke. destruct (createRecording api _ _ _ _) as [w1 r]. reflexivity.
  - unfold invoke.
    destruct (simulateHeartRateData api _ _ _ _) as [w1 [e|rows]];
      [left; reflexivity|]. cbn.
    destruct (simulateRiskPrediction api _ _ _ _) as [w2 [e|pred]];
      [left; reflexivity|]. cbn.
    destruct (saveHeartRateData api _ _) as [w3 r3]. reflexivity.
  - unfold invoke. destruct (saveRiskPrediction api _ _) as [w1 r1]. reflexivity.
  - right. exists (recording_id r). reflexivity.
Qed.

(** [occur] on the session, case by case, for an event that is not a
    click: the three flags stay. *)
Lemma event_keeps_flags (ev : Event) (rt : Rt) :
  (forall b, ev <> Clicked b) ->
  uploading (session (fst (dispatch api user ev rt))) = uploading (session rt) /\
  uploadComplete (session (fst (dispatch api user ev rt)))
    = uploadComplete (session rt) /\
  recordingId (session (fst (dispatch api user ev rt))) = recordingId (session rt).
Proof.
  intros Hev. destruct ev as [b | blob | w files | w files | ms]; cbn [dispatch].
  - now destruct (Hev b).
  - repeat split.
  - destruct (uploaderMounted (session rt)); [|repeat split].
    destruct (snd (VideoUpload.handleChange files w)); repeat split.
  - destruct (uploaderMounted (session rt)); [|repeat split].
    destruct (snd (VideoUpload.handleDrop files w)); repeat split.
  - rewrite WorkflowFacts.elapse_effect. repeat split.
Qed.

Lemma enabled_flags (s : Session) (b : Button) :
  In b fourButtons ->
  rendered s b && negb (disabled s b) = true ->
  uploading s = false /\ uploadComplete s = false.
Proof.
  intros Hb H. apply andb_true_iff in H. destruct H as [Hr Hd].
  cbn in Hb. destruct Hb as [<- | [<- | [<- | [<- | []]]]]; cbn in Hr, Hd;
    apply andb_true_iff in Hr; destruct Hr as [_ Hr];
    apply negb_true_iff in Hr, Hd; auto.
Qed.

Lemma coherent_occur (o : Occurrence) (sys : Sys) :
  coherent sys -> coherent (occur api user o sys).
Proof.
  destruct sys as [rt p]. unfold coherent. cbn [page pending].
  intros (Hlen & Hflag & Hid).
  destruct o as [[b | blob | w files | w files | ms] | i]; cbn [occur page pending].
  - destruct (rendered (session rt) b && negb (disabled (session rt) b)) eqn:E;
      [|cbn [page pending]; auto].
    destruct b; cbn [page pending onClick]; auto.
    + destruct (enabled_flags _ RetakeVideo ltac:(cbn; auto) E) as [_ Hc].
      cbn. rewrite (Hid Hc). auto.
    + destruct (enabled_flags _ AnalyzeRecording ltac:(cbn; auto) E) as [Hu _].
      apply Hflag in Hu. subst p.
      pose proof (begin_session rt) as Hb.
      destruct (beginProcess api user rt) as [rt1 [k|]]; cbn in *.
      * rewrite Hb. cbn. repeat split; auto; discriminate.
      * subst rt1. auto.
    + destruct (enabled_flags _ ChooseDifferentFile ltac:(cbn; auto) E) as [_ Hc].
      cbn. rewrite (Hid Hc). auto.
    + destruct (enabled_flags _ AnalyzeFile ltac:(cbn; auto) E) as [Hu _].
      apply Hflag in Hu. subst p.
      pose proof (begin_session rt) as Hb.
      destruct (beginProcess api user rt) as [rt1 [k|]]; cbn in *.
      * rewrite Hb. cbn. repeat split; auto; discriminate.
      * subst rt1. auto.
  - destruct (event_keeps_flags (RecordingCompleted blob) rt ltac:(discriminate))
      as (-> & -> & ->). auto.
  - destruct (event_keeps_flags (FilesChosen w files) rt ltac:(discriminate))
      as (-> & -> & ->). auto.
  - destruct (event_keeps_flags (FilesDropped w files) rt ltac:(discriminate))
      as (-> & -> & ->). auto.
  - destruct (event_keeps_flags (TimePassed ms) rt ltac:(discriminate))
      as (-> & -> & ->). auto.
  - destruct (p !! i) as [k|] eqn:Hk; cbn [page pending]; [|auto].
    assert (p = [k] /\ i = 0%nat) as [-> ->].
    { destruct p as [|k0 [|k1 p]]; cbn in Hlen; [discriminate Hk | | lia].
      destruct i as [|i]; cbn in Hk; [|discriminate Hk].
      injection Hk as ->. auto. }
    assert (uploading (session rt) = true) as Hup.
    { apply not_false_iff_true. intros E. apply Hflag in E. discriminate. }
    pose proof (resume_session k rt) as Hr.
    destruct (resumeProcess api k rt) as [rt1 [k'|]]; cbn in *.
    + rewrite Hr. repeat split; auto; try discriminate. congruence.
    + destruct Hr as [-> | (rid & ->)]; cbn; repeat split; auto; discriminate.
Qed.

(** A later segment never calls [ensureUserProfile]: it does not start a
    run. *)
Lemma resume_calls (k : Suspended) (rt : Rt) :
  exists tr,
    calls (fst (resumeProcess api k rt)) = calls rt ++ tr /\
    Forall (fun c => stepOf (fst c) <> StepEnsureProfile) tr.
Proof.
  destruct k as [u vf [e|[]] | fileName d [e|r] | r risk [e|[]] | r [e|[]]];
    cbn [resumeProcess];
    try (exists []; split; [cbn; now rewrite app_nil_r | constructor]).
  - unfold invoke. destruct (createRecording api _ _ _ _) as [w1 r].
    eexists. split; [reflexivity|]. repeat constructor. discriminate.
  - unfold invoke.
    destruct (simulateHeartRateData api _ _ _ _) as [w1 [e|rows]]; cbn.
    { eexists. split; [reflexivity|]. repeat constructor. discriminate. }
    destruct (simulateRiskPrediction api _ _ _ _) as [w2 [e|pred]]; cbn.
    { rewrite <- app_assoc. eexists. split; [reflexivity|].
      repeat constructor; discriminate. }
    destruct (saveHeartRateData api _ _) as [w3 r3]. cbn.
    rewrite <- !app_assoc. eexists. split; [reflexivity|].
    repeat constructor; discriminate.
  - unfold invoke. destruct (saveRiskPrediction api _ _) as [w1 r1].
    eexists. split; [reflexivity|]. repeat constructor. discriminate.
Qed.

Lemma event_keeps_calls (ev : Event) (rt : Rt) :
  (forall b, ev <> Clicked b) ->
  calls (fst (dispatch api user ev rt)) = calls rt.
Proof.
  intros Hev. destruct ev as [b | blob | w files | w files | ms]; cbn [dispatch].
  - now destruct (Hev b).
  - reflexivity.
  - destruct (uploaderMounted (session rt)); [|reflexivity].
    destruct (snd (VideoUpload.handleChange files w)); reflexivity.
  - destruct (uploaderMounted (session rt)); [|reflexivity].
    destruct (snd (VideoUpload.handleDrop files w)); reflexivity.
  - now rewrite WorkflowFacts.elapse_effect.
Qed.

(** While [uploading] is true nothing that occurs starts a run. *)
Lemma no_new_run (o : Occurrence) (sys : Sys) :
  uploading (session (page sys)) = true ->
  exists tr,
    calls (page (occur api user o sys)) = calls (page sys) ++ tr /\
    Forall (fun c => stepOf (fst c) <> StepEnsureProfile) tr.
Proof.
  destruct sys as [rt p]. cbn [page pending]. intros Hup.
  assert (exists tr : list (Request Value * Response Value),
             calls rt = calls rt ++ tr /\
             Forall (fun c => stepOf (fst c) <> StepEnsureProfile) tr) as Hsame.
  { exists []. split; [now rewrite app_nil_r | constructor]. }
  destruct o as [[b | blob | w files | w files | ms] | i]; cbn [occur page pending].
  - destruct (rendered (session rt) b && negb (disabled (session rt) b)) eqn:E;
      [|exact Hsame].
    destruct b; cbn [page onClick]; try exact Hsame;
      (apply andb_true_iff in E; destruct E as [_ E]; cbn in E;
       rewrite Hup in E; discriminate E).
  - exact Hsame.
  - rewrite (event_keeps_calls (FilesChosen w files) rt ltac:(discriminate)).
    exact Hsame.
  - rewrite (event_keeps_calls (FilesDropped w files) rt ltac:(discriminate)).
    exact Hsame.
  - rewrite (event_keeps_calls (TimePassed ms) rt ltac:(discriminate)).
    exact Hsame.
  - destruct (p !! i) as [k|]; cbn [page]; [|exact Hsame].
    pose proof (resume_calls k rt) as Hr.
    destruct (resumeProcess api k rt) as [rt1 k']. exact Hr.
Qed.

Lemma coherent_always (os : list Occurrence) (sys : Sys) :
  coherent sys -> coherent (occurAll api user os sys).
Proof.
  revert sys. induction os as [|o os IH]; intros sys H; [exact H|].
  cbn. apply IH. now apply coherent_occur.
Qed.

Lemma coherent_boot (w : World) : coherent (boot (Value:=Value) w).
Proof. unfold coherent. cbn. repeat split; auto. Qed.

Lemma settle_nothing (i : nat) (rt : Rt) :
  occur api user (Settles i) (mkSystem rt []) = mkSystem rt [].
Proof. cbn. now rewrite lookup_nil. Qed.

Ltac by_segments :=
  repeat progress
    (cbn;
     try unfold invoke; try unfold rejected; try unfold processFailed;
     try unfold bind; try unfold set; try unfold setTimeout;
     try unfold consoleError; try unfold alert; try unfold ret).

(** The segments of one run, settled one after the other, do what
    [handleProcess] does from its first statement to its last. *)
Lemma handleProcess_by_segments (rt : Rt) :
  occurAll api user [Settles 0; Settles 0; Settles 0; Settles 0]
           (mkSystem (fst (beginProcess api user rt))
                     (optionList (snd (beginProcess api user rt))))
  = mkSystem (fst (handleProcess api user rt)) [].
Proof.
  unfold beginProcess, handleProcess. destruct user as [u|]; [|reflexivity].
  destruct (negb (bool_decide (is_Some (videoBlob (session rt)))) &&
            negb (bool_decide (is_Some (videoFile (session rt)))));
    [reflexivity|].
  unfold tryCatchFinally, processBody. by_segments.
  destruct (ensureUserProfile api _ _ _) as [w1 [e|[]]]; by_segments;
    [reflexivity|].
  destruct (createRecording api _ _ _ _) as [w2 [e|r]]; by_segments;
    [reflexivity|].
  destruct (simulateHeartRateData api _ _ _ _) as [w3 [e|rows]]; by_segments;
    [reflexivity|].
  destruct (simulateRiskPrediction api _ _ _ _) as [w4 [e|pred]]; by_segments;
    [reflexivity|].
  destruct (saveHeartRateData api _ _) as [w5 [e|[]]]; by_segments; [reflexivity|].
  destruct (saveRiskPrediction api _ _) as [w6 [e|[]]]; by_segments; reflexivity.
Qed.

Lemma atOnce_is_dispatch (ev : Event) (rt : Rt) :
  occurAll api user (atOnce ev) (mkSystem rt [])
  = mkSystem (fst (dispatch api user ev rt)) [].
Proof.
  unfold atOnce, occurAll. cbn [fold_left].
  assert (forall rt0 : Rt,
             fold_left (fun s o => occur api user o s)
                       [Settles 0; Settles 0; Settles 0; Settles 0]
                       (mkSystem rt0 []) = mkSystem rt0 []) as Hidle.
  { intros rt0. cbn [fold_left]. now rewrite !settle_nothing. }
  destruct ev as [b | blob | w files | w files | ms];
    try (cbn [occur page pending]; apply Hidle).
  cbn [occur page pending dispatch]. unfold click.
  destruct (rendered (session rt) b && negb (disabled (session rt) b));
    [|apply Hidle].
  destruct b; cbn [onClick]; try apply Hidle.
  - rewrite <- handleProcess_by_segments.
    destruct (beginProcess api user rt) as [rt1 k]. reflexivity.
  - rewrite <- handleProcess_by_segments.
    destruct (beginProcess api user rt) as [rt1 k]. reflexivity.
Qed.

(** Handling every event to its end before the next one is one of the
    interleavings. *)
Lemma run_is_interleaving (evs : list Event) : forall rt : Rt,
  occurAll api user (flat_map atOnce evs) (mkSystem rt [])
  = mkSystem (fst (run api user evs rt)) [].
Proof.
  induction evs as [|ev evs IH]; intros rt; [reflexivity|].
  cbn [flat_map]. unfold occurAll in *. rewrite fold_left_app.
  fold (occurAll api user (atOnce ev) (mkSystem rt [])).
  rewrite atOnce_is_dispatch, IH. cbn [run]. unfold bind.
  pose proof (WorkflowFacts.dispatch_returns api user ev rt) as Hret.
  destruct (dispatch api user ev rt) as [rt1 [e|[]]]; [discriminate Hret|].
  reflexivity.
Qed.

(** C4.  [handleProcess] is bound to the two Analyze buttons and to
    nothing else, and both are disabled by [uploading]: in every state
    where [uploading] is true, triggering it again changes nothing; the
    page, the log of calls and the runs in flight are what they were.
    The flag is raised by the run itself before its first [await]: a
    click on an enabled Analyze button with a user signed in puts one run
    in flight, with [uploading] true and [ensureUserProfile] called.  And
    over every interleaving of events and settling calls from the mounted
    page, [uploading] is true exactly while a run is in flight, at most one
    run is, and while [uploading] is true nothing that occurs starts
    another: the calls it adds to the log are calls of later steps only. *)
Theorem process_not_reentrant :
  (forall (sys : Sys) (b : Button),
     uploading (session (page sys)) = true ->
     In b [AnalyzeRecording; AnalyzeFile] ->
     occur api user (Happens (Clicked b)) sys = sys) /\
  (forall (sys : Sys) (b : Button) (u : User),
     user = Some u ->
     In b [AnalyzeRecording; AnalyzeFile] ->
     rendered (session (page sys)) b && negb (disabled (session (page sys)) b)
       = true ->
     let sys' := occur api user (Happens (Clicked b)) sys in
     uploading (session (page sys')) = true /\
     (exists k, pending sys' = pending sys ++ [k]) /\
     (exists r0,
        calls (page sys') =
          calls (page sys) ++
          [(EnsureUserProfile (user_id u) (orElse (user_email u) ""), r0)])) /\
  (forall (w : World) (os : list Occurrence),
     let sys := occurAll api user os (boot w) in
     (length (pending sys) <= 1)%nat /\
     (pending sys <> [] <-> uploading (session (page sys)) = true) /\
     (uploading (session (page sys)) = true ->
      forall o, exists tr,
        calls (page (occur api user o sys)) = calls (page sys) ++ tr /\
        Forall (fun c => stepOf (fst c) <> StepEnsureProfile) tr)).
Proof.
  split; [|split].
  - intros [rt p] b Hup Hb. cbn [occur page pending] in *.
    replace (disabled (session rt) b) with true; [now rewrite andb_false_r|].
    cbn in Hb. destruct Hb as [<- | [<- | []]]; symmetry; exact Hup.
  - intros [rt p] b u Hu Hb Hen. cbn [page pending] in *.
    assert (RecordingPage.hasArtifact (session rt)) as Hart.
    { apply andb_true_iff in Hen. destruct Hen as [Hr _].
      cbn in Hb. destruct Hb as [<- | [<- | []]]; cbn in Hr;
        apply andb_true_iff in Hr; destruct Hr as [Hr _];
        apply bool_decide_eq_true_1 in Hr; [left | right]; exact Hr. }
    assert (occur api user (Happens (Clicked b)) (mkSystem rt p)
            = mkSystem (fst (beginProcess api user rt))
                       (p ++ optionList (snd (beginProcess api user rt)))) as ->.
    { cbn [occur page pending]. rewrite Hen.
      cbn in Hb. destruct Hb as [<- | [<- | []]];
        destruct (beginProcess api user rt); reflexivity. }
    cbn [page pending]. unfold beginProcess. rewrite Hu.
    rewrite (RecordingPageFacts.artifact_guard _ Hart).
    unfold invoke, set. cbn.
    destruct (ensureUserProfile api _ _ _) as [w1 r]. cbn.
    repeat split; eauto.
  - intros w os sys. subst sys.
    destruct (coherent_always os _ (coherent_boot w)) as (Hlen & Hflag & _).
    split; [exact Hlen|]. split; [rewrite Hflag; apply not_false_iff_true|].
    intros Hup o. now apply no_new_run.
Qed.

(** C6.  Over every interleaving of events and settling calls from the
    mounted page: whenever a reset button (Retake Video, Choose Different
    File) can be clicked, the click runs [handleReset] and the session
    after it is the initial one: mode select, no blob, no file, and
    [uploading], [uploadComplete] and [recordingId] at their initial
    values; no run of the pipeline is in flight at that moment. *)
Theorem reset_returns_to_initial (w : World) (os : list Occurrence) (b : Button) :
  let sys := occurAll api user os (boot w) in
  In b [RetakeVideo; ChooseDifferentFile] ->
  rendered (session (page sys)) b && negb (disabled (session (page sys)) b) = true ->
  occur api user (Happens (Clicked b)) sys
    = mkSystem (fst (handleReset (page sys))) [] /\
  session (fst (handleReset (page sys))) = initialSession.
Proof.
  intros sys Hb Hen. subst sys.
  destruct (coherent_always os _ (coherent_boot w)) as (_ & Hflag & Hid).
  set (sys := occurAll api user os (boot w)) in *. clearbody sys.
  destruct sys as [rt p]. cbn [page pending] in *.
  destruct (enabled_flags (session rt) b) as [Hu Hc]; [|exact Hen|].
  { cbn in Hb. cbn. tauto. }
  pose proof Hu as Hidle. apply Hflag in Hidle. subst p. split.
  - cbn [occur page pending]. rewrite Hen.
    cbn in Hb. destruct Hb as [<- | [<- | []]]; reflexivity.
  - change (session (fst (handleReset rt)))
      with {| mode := select; videoBlob := None; videoFile := None;
              uploading := uploading (session rt); uploadComplete := false;
              recordingId := recordingId (session rt) |}.
    rewrite Hu, (Hid Hc). reflexivity.
Qed.

End Facts.

Import Demo.

(** A second click on Analyze while the first call is awaited. *)
Example second_click_in_flight :
  let sys := occurAll api (Some alice) analyzeInFlight (boot calm) in
  uploading (session (page sys)) = true /\
  length (pending sys) = 1%nat /\
  occur api (Some alice) (Happens (Clicked AnalyzeFile)) sys = sys.
Proof. repeat split. Qed.

Lemma reset_returns_to_initial_witness :
  session (page (occur api (Some alice) (Happens (Clicked ChooseDifferentFile))
                       (occurAll api (Some alice) fileUnderReview (boot calm))))
  = initialSession.
Proof.
  destruct (reset_returns_to_initial api (Some alice) calm fileUnderReview
              ChooseDifferentFile) as [Hrun Hinit].
  - cbn. auto.
  - reflexivity.
  - rewrite Hrun. exact Hinit.
Defined.

End AsyncFacts.
